(** * TAHO library catalogue: the catalogue query layer

    A shallow embedding of [app.py] (the files [database.py], [models.py],
    [routes/main.py] and [routes/books.py] it concatenates) and the
    properties of its seeder, search and listing handlers.

    Modelling conventions.
    - A Python [str] is a [string]; a character is a code point in
      U+0000..U+00FF (Latin-1), which is what an [ascii] holds.
    - Python integers are unbounded: [Z].
    - A table is the list of its rows in rowid order, the order in which
      SQLite scans a table with no ORDER BY; a nullable column is an
      [option].
    - A handler returns an [outcome]: a value, [abort(404)], or an
      exception that escapes the handler.
    - SQL operators follow SQLite: LIKE patterns with [%] and [_], [lower]
      on ASCII letters only, BINARY collation, NULL below every value in
      ORDER BY, three-valued logic in WHERE.
    - [Query.paginate] follows Flask-SQLAlchemy 3.x, called as the source
      calls it ([error_out=False], no [max_per_page]).
    - The handlers are given twice. The first embedding computes over
      unbounded integers and an unbounded LIKE. The module [Bounded]
      gives the request handlers again with the bounds of CPython 3.11
      and SQLite 3.40 that a request can reach: [int] rejects a literal
      of more than 4300 digits, the driver raises OverflowError when it
      binds an integer outside 64 bits, and LIKE reads pattern and text
      up to their first NUL and rejects a pattern of more than 50000
      bytes. The page count is exact for tables of fewer than 2^53
      rows. *)

From Stdlib Require Import ZArith List String Ascii Bool Lia.
From Stdlib Require Import Sorting.Sorted Sorting.Permutation.
Import ListNotations.

Local Open Scope string_scope.
Local Open Scope Z_scope.

(** ** Outcomes of a handler *)

Inductive exn : Type :=
| ValueError
| AttributeError
| IntegrityError
| OverflowError
| OperationalError.

Inductive outcome (A : Type) : Type :=
| Ok (a : A)
| NotFound
| Raise (e : exn).

Arguments Ok {A} a.
Arguments NotFound {A}.
Arguments Raise {A} e.

Definition bind {A B : Type} (m : outcome A) (k : A -> outcome B) : outcome B :=
  match m with
  | Ok a => k a
  | NotFound => NotFound
  | Raise e => Raise e
  end.

Notation "x <- m ;; k" := (bind m (fun x => k))
  (at level 61, m at next level, right associativity).

Fixpoint mapM {A B : Type} (f : A -> outcome B) (l : list A) : outcome (list B) :=
  match l with
  | [] => Ok []
  | a :: l' => b <- f a ;; bs <- mapM f l' ;; Ok (b :: bs)
  end.

(** ** JSON values, as [jsonify] receives them *)

#[local] Set Warnings "-register-all".

Inductive json : Type :=
| JNull
| JBool (b : bool)
| JInt (n : Z)
| JStr (s : string)
| JList (l : list json)
| JDict (d : list (string * json)).

Definition dict : Type := list (string * json).

Fixpoint dict_get (k : string) (d : dict) : option json :=
  match d with
  | [] => None
  | (k', v) :: d' => if String.eqb k' k then Some v else dict_get k d'
  end.

Definition json_opt {A : Type} (f : A -> json) (o : option A) : json :=
  match o with
  | Some a => f a
  | None => JNull
  end.

(** ** models.py *)

Module Category.
Record t : Type := mk {
  id : Z;
  name : string;
  description : option string;
  image_path : option string
}.
End Category.

Module Book.
Record t : Type := mk {
  id : Z;
  title : string;
  author : string;
  description : option string;
  cover_image : option string;
  published_date : option string;
  isbn : option string;
  publisher : option string;
  pages : option Z;
  available : option bool;
  category_id : Z;
  created_at : option Z
}.
End Book.

(** The two tables behind [db]. *)
Record Store : Type := mkStore {
  category_table : list Category.t;
  book_table : list Book.t
}.

Definition empty_store : Store := mkStore [] [].

(** [Category.query.filter_by(name=n).first()] *)
Definition category_by_name (s : Store) (n : string) : option Category.t :=
  find (fun c => String.eqb (Category.name c) n) (category_table s).

(** The [category] relationship of a Book: the row its foreign key names. *)
Definition category_of (s : Store) (b : Book.t) : option Category.t :=
  find (fun c => Category.id c =? Book.category_id b) (category_table s).

(** The dictionary [Book.to_dict] builds once [self.category] is loaded. *)
Definition book_dict (b : Book.t) (category : Category.t) : dict :=
  [ ("id", JInt (Book.id b));
    ("title", JStr (Book.title b));
    ("author", JStr (Book.author b));
    ("description", json_opt JStr (Book.description b));
    ("cover_image", json_opt JStr (Book.cover_image b));
    ("published_date", json_opt JStr (Book.published_date b));
    ("isbn", json_opt JStr (Book.isbn b));
    ("publisher", json_opt JStr (Book.publisher b));
    ("pages", json_opt JInt (Book.pages b));
    ("available", json_opt JBool (Book.available b));
    ("category", JStr (Category.name category)) ].

(** [Book.to_dict]; [self.category.name] raises AttributeError on [None]. *)
Definition to_dict (s : Store) (b : Book.t) : outcome dict :=
  match category_of s b with
  | None => Raise AttributeError
  | Some c => Ok (book_dict b c)
  end.

(** ** database.py *)

Definition categories : list string :=
  [ "Academic"; "Criminology"; "Fiction"; "Thesis";
    "Financial"; "Religion"; "Self-Growth"; "Technology" ].

(** The rowid SQLite gives the next inserted row. *)
Definition next_id (l : list Category.t) : Z :=
  fold_right (fun c m => Z.max (Category.id c) m) 0 l + 1.

(** [db.session.add(Category(name=n))], flushed: the UNIQUE constraint on
    [name] rejects a second row of the same name. *)
Definition add_category (s : Store) (n : string) : outcome Store :=
  if existsb (fun c => String.eqb (Category.name c) n) (category_table s)
  then Raise IntegrityError
  else Ok (mkStore
             (category_table s ++ [Category.mk (next_id (category_table s)) n None None])
             (book_table s)).

(** The loop of [db_init] over a list of names. *)
Fixpoint seed (names : list string) (s : Store) : outcome Store :=
  match names with
  | [] => Ok s
  | n :: rest =>
      match category_by_name s n with
      | Some _ => seed rest s
      | None => s' <- add_category s n ;; seed rest s'
      end
  end.

Definition db_init (s : Store) : outcome Store := seed categories s.

(** ** Python and SQL text primitives *)

Definition code (c : ascii) : Z := Z.of_N (N_of_ascii c).

(** Truth value of a [str]: non-empty. *)
Definition truthy (s : string) : bool :=
  match s with
  | EmptyString => false
  | String _ _ => true
  end.

(** A decimal digit, [0] to [9]. *)
Definition is_decimal (c : ascii) : bool := (48 <=? code c) && (code c <=? 57).

(** A character for which [str.isdigit] holds: the decimal digits and, in
    Latin-1, the superscripts U+00B2, U+00B3 and U+00B9. *)
Definition is_digit_char (c : ascii) : bool :=
  is_decimal c || (code c =? 178) || (code c =? 179) || (code c =? 185).

Fixpoint all_chars (p : ascii -> bool) (s : string) : bool :=
  match s with
  | EmptyString => true
  | String c s' => p c && all_chars p s'
  end.

(** [s.isdigit()] *)
Definition isdigit (s : string) : bool := truthy s && all_chars is_digit_char s.

(** White space that [int] strips. *)
Definition is_space (c : ascii) : bool :=
  ((9 <=? code c) && (code c <=? 13)) || (code c =? 32)
  || (code c =? 133) || (code c =? 160).

Fixpoint lstrip (l : list ascii) : list ascii :=
  match l with
  | c :: l' => if is_space c then lstrip l' else l
  | [] => []
  end.

Definition strip (l : list ascii) : list ascii := rev (lstrip (rev (lstrip l))).

(** The digits of an integer literal: decimal digits, single underscores
    between them. [after_digit] tells whether the previous character was a
    digit. *)
Fixpoint int_digits (acc : Z) (after_digit : bool) (l : list ascii) : option Z :=
  match l with
  | [] => if after_digit then Some acc else None
  | c :: l' =>
      if is_decimal c then int_digits (10 * acc + (code c - 48)) true l'
      else if Ascii.eqb c "_" && after_digit then
        match l' with
        | [] => None
        | _ => int_digits acc false l'
        end
      else None
  end.

(** [int(s)]; [None] stands for ValueError. *)
Definition py_int (s : string) : option Z :=
  match strip (list_ascii_of_string s) with
  | c :: l =>
      if Ascii.eqb c "-" then option_map Z.opp (int_digits 0 false l)
      else if Ascii.eqb c "+" then int_digits 0 false l
      else int_digits 0 false (c :: l)
  | [] => None
  end.

(** SQLite's [lower]: ASCII letters only. *)
Definition lower_char (c : ascii) : ascii :=
  if (65 <=? code c) && (code c <=? 90)
  then ascii_of_N (N_of_ascii c + 32)
  else c.

Fixpoint lower (s : string) : string :=
  match s with
  | EmptyString => EmptyString
  | String c s' => String (lower_char c) (lower s')
  end.

(** [text LIKE pat]: [%] matches any run of characters, [_] any one
    character, every other character itself; no escape character. *)
Fixpoint like (pat : string) : string -> bool :=
  match pat with
  | EmptyString => fun text => negb (truthy text)
  | String p pat' =>
      if Ascii.eqb p "%" then
        fix any (text : string) : bool :=
          like pat' text ||
          match text with
          | EmptyString => false
          | String _ text' => any text'
          end
      else if Ascii.eqb p "_" then
        fun text =>
          match text with
          | EmptyString => false
          | String _ text' => like pat' text'
          end
      else
        fun text =>
          match text with
          | EmptyString => false
          | String c text' => Ascii.eqb p c && like pat' text'
          end
  end.

(** [column.ilike(pat)], compiled for SQLite as
    [lower(column) LIKE lower(pat)]; NULL on a NULL column. *)
Definition ilike (column : option string) (pat : string) : option bool :=
  match column with
  | None => None
  | Some text => Some (like (lower pat) (lower text))
  end.

(** SQL's three-valued OR. *)
Definition sql_or (a b : option bool) : option bool :=
  match a, b with
  | Some true, _ | _, Some true => Some true
  | Some false, Some false => Some false
  | _, _ => None
  end.

(** A WHERE clause keeps the rows on which it is true. *)
Definition sql_true (a : option bool) : bool :=
  match a with
  | Some true => true
  | _ => false
  end.

(** ** The query string of a request *)

Definition Args : Type := list (string * string).

(** [request.args.get(k, None)]: the first value of the key. *)
Fixpoint args_get (k : string) (args : Args) : option string :=
  match args with
  | [] => None
  | (k', v) :: args' => if String.eqb k' k then Some v else args_get k args'
  end.

(** [request.args.get(k, default)] *)
Definition args_get_str (k default : string) (args : Args) : string :=
  match args_get k args with
  | Some v => v
  | None => default
  end.

(** [request.args.get(k, default, type=int)]: the default also when the
    value is no integer. *)
Definition args_get_int (k : string) (default : Z) (args : Args) : Z :=
  match args_get k args with
  | Some v =>
      match py_int v with
      | Some n => n
      | None => default
      end
  | None => default
  end.

(** ** routes/main.py *)

(** The WHERE clause of the base query of [search]. *)
Definition text_match (query : string) (b : Book.t) : bool :=
  let pat := "%" ++ query ++ "%" in
  sql_true
    (sql_or (sql_or (ilike (Some (Book.title b)) pat)
                    (ilike (Some (Book.author b)) pat))
            (ilike (Book.description b) pat)).

(** The rows [book_query.all()] returns in [search]. *)
Definition search_rows (s : Store) (query : string) (category_id : option string)
  : outcome (list Book.t) :=
  let book_query := filter (text_match query) (book_table s) in
  match category_id with
  | Some cid =>
      if truthy cid && isdigit cid then
        match py_int cid with
        | Some n => Ok (filter (fun b => Book.category_id b =? n) book_query)
        | None => Raise ValueError
        end
      else Ok book_query
  | None => Ok book_query
  end.

Definition search_response (results : list dict) (count : Z) : json :=
  JDict [ ("results", JList (map JDict results)); ("count", JInt count) ].

Definition search (s : Store) (args : Args) : outcome json :=
  let query := args_get_str "q" "" args in
  let category_id := args_get "category" args in
  if truthy query then
    books <- search_rows s query category_id ;;
    results <- mapM (to_dict s) books ;;
    Ok (search_response results (Z.of_nat (List.length books)))
  else Ok (search_response [] 0).


(** ** Flask-SQLAlchemy pagination *)

Module Pagination.
Record t : Type := mk {
  page : Z;
  per_page : Z;
  total : Z;
  items : list Book.t
}.

(** [ceil(total / per_page)], and 0 for an empty result. *)
Definition pages (p : t) : Z :=
  if total p =? 0 then 0 else (total p + per_page p - 1) / per_page p.

Definition has_prev (p : t) : bool := 1 <? page p.
Definition has_next (p : t) : bool := page p <? pages p.
End Pagination.

(** [query.limit(limit).offset(offset).all()] *)
Definition limit_offset (limit offset : Z) (rows : list Book.t) : list Book.t :=
  firstn (Z.to_nat limit) (skipn (Z.to_nat offset) rows).

(** [query.paginate(page=page, per_page=per_page, error_out=False)]: a page
    below 1 becomes 1 and a page size below 1 becomes 20. *)
Definition paginate (rows : list Book.t) (page per_page : Z) : Pagination.t :=
  let page := if page <? 1 then 1 else page in
  let per_page := if per_page <? 1 then 20 else per_page in
  Pagination.mk page per_page (Z.of_nat (List.length rows))
    (limit_offset per_page ((page - 1) * per_page) rows).

(** ** ORDER BY *)

Section OrderBy.
Context {A : Type} (le : A -> A -> bool).

Fixpoint insert_row (x : A) (l : list A) : list A :=
  match l with
  | [] => [x]
  | y :: l' => if le x y then x :: l else y :: insert_row x l'
  end.

(** The rows in the order [le], rows that compare equal in table order. *)
Definition order_by (l : list A) : list A := fold_right insert_row [] l.
End OrderBy.

(** Order of a nullable text column: NULL first, then BINARY collation. *)
Definition null_leb (a b : option string) : bool :=
  match a, b with
  | None, _ => true
  | Some _, None => false
  | Some x, Some y => String.leb x y
  end.

(** [ORDER BY book.title] *)
Definition title_asc (a b : Book.t) : bool := String.leb (Book.title a) (Book.title b).

(** [ORDER BY book.published_date DESC] *)
Definition date_desc (a b : Book.t) : bool :=
  null_leb (Book.published_date b) (Book.published_date a).

(** ** routes/books.py *)

(** [Book.query.filter_by(category_id=cid)] *)
Definition books_in (s : Store) (cid : Z) : list Book.t :=
  filter (fun b => Book.category_id b =? cid) (book_table s).

(** [first_or_404] *)
Definition first_or_404 {A : Type} (o : option A) : outcome A :=
  match o with
  | Some a => Ok a
  | None => NotFound
  end.

(** What [category] hands to the template [category.html]. *)
Record CategoryPage : Type := mkCategoryPage {
  page_category : Category.t;
  page_books : list Book.t;
  page_pagination : Pagination.t;
  page_total_books : Z
}.

Definition category (s : Store) (category_name : string) (args : Args)
  : outcome CategoryPage :=
  category <- first_or_404 (category_by_name s category_name) ;;
  let page := args_get_int "page" 1 args in
  let per_page := args_get_int "per_page" 10 args in
  let books_pagination := paginate (books_in s (Category.id category)) page per_page in
  let total_books := Z.of_nat (List.length (books_in s (Category.id category))) in
  Ok (mkCategoryPage category (Pagination.items books_pagination)
        books_pagination total_books).

(** The query of [api_category_books] after its sort option. *)
Definition sorted_query (sort_by : string) (query : list Book.t) : list Book.t :=
  if String.eqb sort_by "title" then order_by title_asc query
  else if String.eqb sort_by "date" then order_by date_desc query
  else query.

Definition api_response (books : list dict) (total pages current_page : Z) : json :=
  JDict [ ("books", JList (map JDict books));
          ("total", JInt total);
          ("pages", JInt pages);
          ("current_page", JInt current_page) ].

Definition api_category_books (s : Store) (category_name : string) (args : Args)
  : outcome json :=
  category <- first_or_404 (category_by_name s category_name) ;;
  let page := args_get_int "page" 1 args in
  let per_page := args_get_int "per_page" 10 args in
  let sort_by := args_get_str "sort_by" "relevance" args in
  let query := sorted_query sort_by (books_in s (Category.id category)) in
  let books_pagination := paginate query page per_page in
  let total_books := Z.of_nat (List.length query) in
  books_data <- mapM (to_dict s) (Pagination.items books_pagination) ;;
  Ok (api_response books_data total_books (Pagination.pages books_pagination) page).

(** ** Measures on the category table *)

(** How many category rows carry the name [n]. *)
Definition count_name (n : string) (l : list Category.t) : nat :=
  List.length (filter (fun c => String.eqb (Category.name c) n) l).

(** Whether [n] is one of the seeded names. *)
Definition seeded_name (n : string) : bool := existsb (String.eqb n) categories.

(** How many category rows carry a seeded name. *)
Definition seeded_size (s : Store) : nat :=
  List.length (filter (fun c => seeded_name (Category.name c)) (category_table s)).

(** ** Changing the availability flags *)







(** ** Substring search, as the specification words it *)

(** [q] occurs in [text] as a run of consecutive characters. *)
Fixpoint substring_of (q text : string) : bool :=
  String.prefix q text ||
  match text with
  | EmptyString => false
  | String _ text' => substring_of q text'
  end.

(** A field contains [q] as a case-insensitive substring, case folded as
    [lower] does; an absent field contains nothing. *)
Definition contains_ci (q : string) (field : option string) : bool :=
  match field with
  | Some text => substring_of (lower q) (lower text)
  | None => false
  end.

(** Title, author or description contains [q]. *)
Definition spec_match (q : string) (b : Book.t) : bool :=
  contains_ci q (Some (Book.title b))
  || contains_ci q (Some (Book.author b))
  || contains_ci q (Book.description b).

(** A LIKE wildcard. *)
Definition is_wildcard (c : ascii) : bool := Ascii.eqb c "%" || Ascii.eqb c "_".

(** No character of [q] is a LIKE wildcard. *)
Definition wildcard_free (q : string) : bool :=
  all_chars (fun c => negb (is_wildcard c)) q.

(** ** Sample data *)

Definition sample_book (id : Z) (title author : string) (date : option string)
  (available : bool) (category_id : Z) : Book.t :=
  Book.mk id title author None None date None None None (Some available)
    category_id None.

(** The category rows a first start leaves in an empty database. *)
Definition seeded_categories : list Category.t :=
  [ Category.mk 1 "Academic" None None; Category.mk 2 "Criminology" None None;
    Category.mk 3 "Fiction" None None; Category.mk 4 "Thesis" None None;
    Category.mk 5 "Financial" None None; Category.mk 6 "Religion" None None;
    Category.mk 7 "Self-Growth" None None; Category.mk 8 "Technology" None None ].

Definition hobbit : Book.t :=
  sample_book 1 "The Hobbit" "J.R.R. Tolkien" (Some "1937") true 3.
Definition carrie : Book.t :=
  sample_book 2 "Carrie" "King" (Some "1974-04-05") false 3.
Definition sicp : Book.t :=
  sample_book 3 "Abstraction" "Abelson" None true 8.

Definition library : Store := mkStore seeded_categories [hobbit; carrie; sicp].

(** [n] books of category 3, ids 1 to [n] in table order. *)
Fixpoint fiction_shelf (n : nat) : list Book.t :=
  match n with
  | O => []
  | S k => fiction_shelf k ++ [sample_book (Z.of_nat n) "Novel" "Anon" None true 3]
  end.

Definition big_library : Store := mkStore seeded_categories (fiction_shelf 25).

(** A store holding one of the seeded names only. *)
Definition fiction_only : Store := mkStore [Category.mk 1 "Fiction" None None] [].

(** The superscript two, U+00B2. *)
Definition superscript_two : string := String (ascii_of_nat 178) EmptyString.

(** ** The remaining handlers *)

(** [index]: the categories [index.html] is rendered with. *)
Definition index (s : Store) : list Category.t := category_table s.

(** [Book.query.get_or_404(book_id)] *)
Definition get_or_404 (s : Store) (book_id : Z) : outcome Book.t :=
  match find (fun b => Book.id b =? book_id) (book_table s) with
  | Some b => Ok b
  | None => NotFound
  end.

(** [book_detail]: the book [book_detail.html] is rendered with. *)
Definition book_detail (s : Store) (book_id : Z) : outcome Book.t :=
  get_or_404 s book_id.


(** ** Key constraints of the tables *)

(** The primary key and the UNIQUE name of the category table. *)
Definition unique_keys (s : Store) : Prop :=
  NoDup (map Category.id (category_table s))
  /\ NoDup (map Category.name (category_table s)).

(** The primary key of the book table. *)
Definition unique_book_ids (s : Store) : Prop :=
  NoDup (map Book.id (book_table s)).

(** Every book references a stored category. *)
Definition references_resolve (s : Store) : Prop :=
  forall b, In b (book_table s) -> category_of s b <> None.


(** ** The handlers with the bounds of the interpreter and of SQLite *)

Module Bounded.

(** Digit strings longer than this are refused by [int]. *)
Definition max_str_digits : Z := 4300.

(** The number of decimal digits in a string. *)
Fixpoint digit_count (s : string) : Z :=
  match s with
  | EmptyString => 0
  | String c s' => (if is_decimal c then 1 else 0) + digit_count s'
  end.

(** [int(s)]: ValueError also for a literal of more than 4300 digits. *)
Definition int (s : string) : option Z :=
  if max_str_digits <? digit_count s then None else py_int s.

(** [request.args.get(k, default, type=int)] *)
Definition args_get_int (k : string) (default : Z) (args : Args) : Z :=
  match args_get k args with
  | Some v =>
      match int v with
      | Some n => n
      | None => default
      end
  | None => default
  end.

(** A signed 64-bit integer, the INTEGER of SQLite. *)
Definition int64 (n : Z) : bool :=
  (-9223372036854775808 <=? n) && (n <? 9223372036854775808).

(** The driver binds a Python integer as a query parameter: OverflowError
    when it does not fit. *)
Definition bind_param (n : Z) : outcome Z :=
  if int64 n then Ok n else Raise OverflowError.

(** [query.paginate(page=page, per_page=per_page, error_out=False)]: LIMIT
    and OFFSET are bound parameters of the query for the items. *)
Definition paginate (rows : list Book.t) (page per_page : Z) : outcome Pagination.t :=
  let page := if page <? 1 then 1 else page in
  let per_page := if per_page <? 1 then 20 else per_page in
  limit <- bind_param per_page ;;
  offset <- bind_param ((page - 1) * per_page) ;;
  Ok (Pagination.mk page per_page (Z.of_nat (List.length rows))
        (limit_offset limit offset rows)).

Definition category (s : Store) (category_name : string) (args : Args)
  : outcome CategoryPage :=
  category <- first_or_404 (category_by_name s category_name) ;;
  let page := args_get_int "page" 1 args in
  let per_page := args_get_int "per_page" 10 args in
  books_pagination <- paginate (books_in s (Category.id category)) page per_page ;;
  let total_books := Z.of_nat (List.length (books_in s (Category.id category))) in
  Ok (mkCategoryPage category (Pagination.items books_pagination)
        books_pagination total_books).

Definition api_category_books (s : Store) (category_name : string) (args : Args)
  : outcome json :=
  category <- first_or_404 (category_by_name s category_name) ;;
  let page := args_get_int "page" 1 args in
  let per_page := args_get_int "per_page" 10 args in
  let sort_by := args_get_str "sort_by" "relevance" args in
  let query := sorted_query sort_by (books_in s (Category.id category)) in
  books_pagination <- paginate query page per_page ;;
  let total_books := Z.of_nat (List.length query) in
  books_data <- mapM (to_dict s) (Pagination.items books_pagination) ;;
  Ok (api_response books_data total_books (Pagination.pages books_pagination) page).

(** [Book.query.get_or_404(book_id)]: the id is a bound parameter. *)
Definition get_or_404 (s : Store) (book_id : Z) : outcome Book.t :=
  id <- bind_param book_id ;; get_or_404 s id.

Definition book_detail (s : Store) (book_id : Z) : outcome Book.t :=
  get_or_404 s book_id.

(** The text SQLite's LIKE reads: up to the first NUL. *)
Fixpoint c_str (s : string) : string :=
  match s with
  | EmptyString => EmptyString
  | String c s' => if code c =? 0 then EmptyString else String c (c_str s')
  end.

(** The length of a text in bytes, as UTF-8. *)
Fixpoint utf8_length (s : string) : Z :=
  match s with
  | EmptyString => 0
  | String c s' => (if code c <? 128 then 1 else 2) + utf8_length s'
  end.

(** The longest pattern LIKE accepts, in bytes. *)
Definition like_pattern_limit : Z := 50000.

(** [column.ilike(pat)] *)
Definition ilike (column : option string) (pat : string) : option bool :=
  match column with
  | None => None
  | Some text => Some (like (c_str (lower pat)) (c_str (lower text)))
  end.

(** The WHERE clause of the base query of [search]. *)
Definition text_match (query : string) (b : Book.t) : bool :=
  let pat := "%" ++ query ++ "%" in
  sql_true
    (sql_or (sql_or (ilike (Some (Book.title b)) pat)
                    (ilike (Some (Book.author b)) pat))
            (ilike (Book.description b) pat)).

(** The category filter of [search]: [int] runs when the filter is built. *)
Definition category_filter (category_id : option string) : outcome (option Z) :=
  match category_id with
  | Some cid =>
      if truthy cid && isdigit cid then
        match int cid with
        | Some n => Ok (Some n)
        | None => Raise ValueError
        end
      else Ok None
  | None => Ok None
  end.

(** The rows [book_query.all()] returns in [search]: the parameters are
    bound, then the WHERE clause is run on each row, and LIKE refuses a
    pattern that is too long on the first row it sees. *)
Definition search_rows (s : Store) (query : string) (category_id : option string)
  : outcome (list Book.t) :=
  filter_id <- category_filter category_id ;;
  match filter_id with
  | Some n =>
      id <- bind_param n ;;
      if (like_pattern_limit <? utf8_length ("%" ++ query ++ "%"))
         && negb (Nat.eqb (List.length (book_table s)) 0)
      then Raise OperationalError
      else Ok (filter (fun b => Book.category_id b =? id)
                 (filter (text_match query) (book_table s)))
  | None =>
      if (like_pattern_limit <? utf8_length ("%" ++ query ++ "%"))
         && negb (Nat.eqb (List.length (book_table s)) 0)
      then Raise OperationalError
      else Ok (filter (text_match query) (book_table s))
  end.

Definition search (s : Store) (args : Args) : outcome json :=
  let query := args_get_str "q" "" args in
  let category_id := args_get "category" args in
  if truthy query then
    books <- search_rows s query category_id ;;
    results <- mapM (to_dict s) books ;;
    Ok (search_response results (Z.of_nat (List.length books)))
  else Ok (search_response [] 0).

(** The LIMIT and OFFSET of a listing request fit in 64 bits. *)
Definition listing_fits (args : Args) : bool :=
  let page := args_get_int "page" 1 args in
  let per_page := args_get_int "per_page" 10 args in
  let page := if page <? 1 then 1 else page in
  let per_page := if per_page <? 1 then 20 else per_page in
  int64 per_page && int64 ((page - 1) * per_page).

(** [q] occurs in a field read up to its first NUL, letters A to Z
    compared without case; an absent field contains nothing. *)
Definition contains_ci (q : string) (field : option string) : bool :=
  match field with
  | Some text => substring_of (lower q) (c_str (lower text))
  | None => false
  end.

(** Title, author or description contains [q]. *)
Definition spec_match (q : string) (b : Book.t) : bool :=
  contains_ci q (Some (Book.title b))
  || contains_ci q (Some (Book.author b))
  || contains_ci q (Book.description b).

End Bounded.

(** A store with NUL characters in the texts of a book. *)
Definition nul_library : Store :=
  mkStore seeded_categories
    [ hobbit; carrie; sicp;
      sample_book 4 (String "a" (String "b" (String zero "cd")))
        (String "x" (String zero "y")) None true 3 ].

(** The largest signed 64-bit integer, as a request writes it. *)
Definition max_int64 : string := "9223372036854775807".

(** * Properties *)

(** ** Shared facts *)

Lemma category_by_name_none (s : Store) (n : string) :
  (forall c, In c (category_table s) -> Category.name c <> n) ->
  category_by_name s n = None.
Proof.
  intros H. unfold category_by_name.
  induction (category_table s) as [|c l IH]; simpl; [reflexivity|].
  destruct (String.eqb_spec (Category.name c) n) as [E|_].
  - exfalso. apply (H c); [left; reflexivity | exact E].
  - apply IH. intros c' Hc'. apply H. right. exact Hc'.
Qed.

(** ** The seeded vocabulary *)

(** C9: the seeded vocabulary is the eight names, in this order, and
    seeding an empty store leaves exactly one category row per name, in
    that order, and no other row. *)
Theorem seed_vocabulary :
  categories =
    [ "Academic"; "Criminology"; "Fiction"; "Thesis";
      "Financial"; "Religion"; "Self-Growth"; "Technology" ]
  /\ exists s, db_init empty_store = Ok s
       /\ map Category.name (category_table s) = categories
       /\ map Category.id (category_table s) = [1; 2; 3; 4; 5; 6; 7; 8]
       /\ book_table s = [].
Proof.
  split; [reflexivity|].
  exists (mkStore seeded_categories []).
  repeat split; reflexivity.
Qed.

(** ** Serialisation *)

(** C8: a Book whose category reference resolves serialises to a
    dictionary whose [category] field is the name of that category, a
    string, and no number, so not the numeric id of the category. *)
Theorem to_dict_category_name (s : Store) (b : Book.t) (c : Category.t) :
  category_of s b = Some c ->
  exists d, to_dict s b = Ok d
    /\ dict_get "category" d = Some (JStr (Category.name c))
    /\ (forall n, dict_get "category" d <> Some (JInt n)).
Proof.
  intros H. unfold to_dict. rewrite H.
  eexists. split; [reflexivity|].
  split; [reflexivity | discriminate].
Qed.

Lemma to_dict_category_name_witness :
  exists d, to_dict library hobbit = Ok d
    /\ dict_get "category" d = Some (JStr "Fiction")
    /\ (forall n, dict_get "category" d <> Some (JInt n)).
Proof.
  apply (to_dict_category_name library hobbit (Category.mk 3 "Fiction" None None)).
  reflexivity.
Defined.

(** ** Search *)

(** C6: with no [q] parameter, or an empty one, [search] answers
    [{results: [], count: 0}], a success, whatever the store holds and
    whatever category filter comes with it. *)
Theorem search_empty_query (s : Store) (args : Args) :
  args_get "q" args = None \/ args_get "q" args = Some "" ->
  search s args = Ok (search_response [] 0).
Proof.
  intros H. unfold search, args_get_str.
  destruct H as [H|H]; rewrite H; reflexivity.
Qed.

Lemma search_empty_query_witness :
  search library [("category", "3")] = Ok (search_response [] 0)
  /\ search library [("q", ""); ("category", "3")] = Ok (search_response [] 0).
Proof.
  split.
  - apply (search_empty_query library [("category", "3")]). left. reflexivity.
  - apply (search_empty_query library [("q", ""); ("category", "3")]).
    right. reflexivity.
Defined.

(** ** Unknown categories *)

(** C5: for a name no category row carries, the category page and the API
    listing both end in [abort(404)]; that outcome is neither a success
    (so no empty listing) nor an escaped exception. *)
Theorem unknown_category_not_found (s : Store) (category_name : string) (args : Args) :
  (forall c, In c (category_table s) -> Category.name c <> category_name) ->
  category s category_name args = NotFound
  /\ api_category_books s category_name args = NotFound
  /\ (forall p, category s category_name args <> Ok p)
  /\ (forall j, api_category_books s category_name args <> Ok j)
  /\ (forall e, category s category_name args <> Raise e)
  /\ (forall e, api_category_books s category_name args <> Raise e).
Proof.
  intros H. apply category_by_name_none in H.
  unfold category, api_category_books. rewrite H. simpl.
  repeat split; intros; discriminate.
Qed.

Lemma unknown_category_not_found_witness :
  category library "NoSuchCategory" [] = NotFound
  /\ api_category_books library "NoSuchCategory" [] = NotFound.
Proof.
  assert (H : forall c, In c (category_table library) ->
                        Category.name c <> "NoSuchCategory").
  { simpl. intros c Hc.
    repeat (destruct Hc as [<-|Hc]; [discriminate|]). destruct Hc. }
  pose proof (unknown_category_not_found library "NoSuchCategory" [] H) as W.
  split; [exact (proj1 W) | exact (proj1 (proj2 W))].
Defined.

(** ** The seeder *)

Lemma count_name_app (n : string) (l1 l2 : list Category.t) :
  count_name n (l1 ++ l2) = (count_name n l1 + count_name n l2)%nat.
Proof. unfold count_name. rewrite filter_app, length_app. reflexivity. Qed.

Lemma find_name_none_count (n : string) (l : list Category.t) :
  find (fun c => String.eqb (Category.name c) n) l = None <-> count_name n l = 0%nat.
Proof.
  unfold count_name. induction l as [|c l IH]; simpl; [tauto|].
  destruct (String.eqb (Category.name c) n); simpl; [split; discriminate | exact IH].
Qed.

Lemma existsb_name_count (n : string) (l : list Category.t) :
  count_name n l = 0%nat ->
  existsb (fun c => String.eqb (Category.name c) n) l = false.
Proof.
  unfold count_name. induction l as [|c l IH]; simpl; [reflexivity|].
  destruct (String.eqb (Category.name c) n); simpl; [discriminate | exact IH].
Qed.

(** One pass of the loop keeps the rows there are, appends a row exactly
    for the listed names the table lacks, and never fails. *)
Lemma seed_counts (names : list string) :
  forall s, exists s',
    seed names s = Ok s'
    /\ book_table s' = book_table s
    /\ (exists added, category_table s' = (category_table s ++ added)%list)
    /\ forall n, count_name n (category_table s') =
         if Nat.eqb (count_name n (category_table s)) 0
         then (if existsb (String.eqb n) names then 1%nat else 0%nat)
         else count_name n (category_table s).
Proof.
  induction names as [|n0 rest IH]; intros s; simpl.
  - exists s. repeat split.
    + exists []. now rewrite app_nil_r.
    + intros n. destruct (Nat.eqb_spec (count_name n (category_table s)) 0); congruence.
  - unfold category_by_name.
    destruct (find _ (category_table s)) as [c|] eqn:F.
    + destruct (IH s) as (s' & Hs & Hb & Ha & Hc). exists s'. repeat split; trivial.
      intros n. rewrite Hc.
      destruct (Nat.eqb_spec (count_name n (category_table s)) 0) as [Z0|_]; trivial.
      destruct (String.eqb_spec n n0) as [->|_]; simpl; trivial.
      apply find_name_none_count in Z0. congruence.
    + apply find_name_none_count in F.
      unfold add_category. rewrite (existsb_name_count _ _ F). simpl.
      match goal with
      | |- context [seed rest ?s1] => destruct (IH s1) as (s' & Hs & Hb & Ha & Hc)
      end.
      exists s'. repeat split; trivial.
      * destruct Ha as (added & Ha). simpl in Ha. rewrite <- app_assoc in Ha.
        eexists. exact Ha.
      * intros n. rewrite Hc. simpl. rewrite count_name_app.
        unfold count_name at 2 4. simpl.
        destruct (String.eqb_spec n0 n) as [<-|Hne]; simpl.
        -- rewrite F. simpl. rewrite String.eqb_refl. reflexivity.
        -- rewrite Nat.add_0_r.
           destruct (String.eqb_spec n n0) as [->|_]; [congruence|]. reflexivity.
Qed.

(** The loop leaves a store alone that has every listed name. *)
Lemma seed_all_present (names : list string) (s : Store) :
  (forall n, In n names -> category_by_name s n <> None) ->
  seed names s = Ok s.
Proof.
  induction names as [|n0 rest IH]; intros H; simpl; [reflexivity|].
  destruct (category_by_name s n0) eqn:F.
  - apply IH. intros n Hn. apply H. right. exact Hn.
  - exfalso. apply (H n0); [left; reflexivity | exact F].
Qed.

(** C4, as the code has it: on every store the seeder succeeds; it keeps
    the category rows there are and only appends; a name that already has
    rows keeps exactly those (no duplicate), a seeded name without a row
    gets one, no other name gets any, and the books are untouched;
    seeding the result again changes nothing, and a store that has every
    seeded name is left as it is. *)
Theorem db_init_idempotent (s : Store) :
  exists s',
    db_init s = Ok s'
    /\ book_table s' = book_table s
    /\ (exists added, category_table s' = (category_table s ++ added)%list)
    /\ (forall n, count_name n (category_table s') =
          if Nat.eqb (count_name n (category_table s)) 0
          then (if seeded_name n then 1%nat else 0%nat)
          else count_name n (category_table s))
    /\ db_init s' = Ok s'
    /\ ((forall n, In n categories -> category_by_name s n <> None) -> s' = s).
Proof.
  unfold db_init, seeded_name.
  destruct (seed_counts categories s) as (s' & Hs & Hb & Ha & Hc).
  exists s'. repeat split; trivial.
  - apply seed_all_present. intros n Hn F.
    apply find_name_none_count in F. rewrite Hc in F.
    assert (E : existsb (String.eqb n) categories = true).
    { apply existsb_exists. exists n. split; [exact Hn | apply String.eqb_refl]. }
    rewrite E in F.
    destruct (Nat.eqb_spec (count_name n (category_table s)) 0); congruence.
  - intros H. apply seed_all_present in H. congruence.
Qed.

Lemma db_init_idempotent_witness :
  exists s', db_init library = Ok s' /\ s' = library /\ db_init s' = Ok s'.
Proof.
  destruct (db_init_idempotent library) as (s' & H & _ & _ & _ & Hagain & Hall).
  exists s'. split; [exact H|]. split; [|exact Hagain].
  apply Hall. simpl. intros n Hn.
  repeat (destruct Hn as [<-|Hn]; [discriminate|]). destruct Hn.
Defined.

(** C4, as stated, fails on a store that has some of the seeded names
    only: the store with the single category Fiction has one row with a
    seeded name before the seeder runs and eight after. *)
Lemma seeder_grows_partial_store :
  category_by_name fiction_only "Fiction" <> None
  /\ In "Fiction" categories
  /\ exists s', db_init fiction_only = Ok s'
       /\ seeded_size fiction_only = 1%nat
       /\ seeded_size s' = 8%nat
       /\ seeded_size s' <> seeded_size fiction_only.
Proof.
  split; [discriminate|].
  split; [simpl; tauto|].
  eexists. split; [reflexivity|].
  repeat split; try reflexivity. discriminate.
Qed.

(** ** Pagination *)

Lemma insert_row_length {A : Type} (le : A -> A -> bool) (x : A) (l : list A) :
  List.length (insert_row le x l) = S (List.length l).
Proof.
  induction l as [|y l IH]; simpl; [reflexivity|].
  destruct (le x y); simpl; [reflexivity | now rewrite IH].
Qed.

Lemma order_by_length {A : Type} (le : A -> A -> bool) (l : list A) :
  List.length (order_by le l) = List.length l.
Proof.
  induction l as [|x l IH]; simpl; [reflexivity|].
  rewrite insert_row_length. f_equal. exact IH.
Qed.

Lemma sorted_query_length (sort_by : string) (l : list Book.t) :
  List.length (sorted_query sort_by l) = List.length l.
Proof.
  unfold sorted_query.
  destruct (String.eqb sort_by "title"); [apply order_by_length|].
  destruct (String.eqb sort_by "date"); [apply order_by_length | reflexivity].
Qed.

(** The page count is the ceiling of total over page size. *)
Lemma pages_ceiling (rows : list Book.t) (page per_page : Z) :
  let pg := paginate rows page per_page in
  1 <= Pagination.page pg
  /\ 1 <= Pagination.per_page pg
  /\ Pagination.total pg = Z.of_nat (List.length rows)
  /\ (Pagination.pages pg - 1) * Pagination.per_page pg < Pagination.total pg
  /\ Pagination.total pg <= Pagination.pages pg * Pagination.per_page pg.
Proof.
  unfold paginate, Pagination.pages. simpl.
  set (pp := if per_page <? 1 then 20 else per_page).
  set (t := Z.of_nat (List.length rows)).
  assert (Hpp : 1 <= pp) by (unfold pp; destruct (Z.ltb_spec per_page 1); lia).
  assert (Ht : 0 <= t) by (unfold t; lia).
  split; [destruct (Z.ltb_spec page 1); lia|].
  split; [exact Hpp|]. split; [reflexivity|].
  destruct (Z.eqb_spec t 0) as [->|Hne]; [lia|].
  pose proof (Z.mul_div_le (t + pp - 1) pp ltac:(lia)).
  pose proof (Z.mul_succ_div_gt (t + pp - 1) pp ltac:(lia)).
  nia.
Qed.

(** A page past the last one holds no row. *)
Lemma paginate_beyond (rows : list Book.t) (page per_page : Z) :
  Pagination.pages (paginate rows page per_page) < page ->
  Pagination.items (paginate rows page per_page) = []
  /\ Pagination.page (paginate rows page per_page) = page.
Proof.
  intros H.
  destruct (pages_ceiling rows page per_page) as (_ & Hpp & Ht & Hlo & Hhi).
  revert H Hpp Ht Hlo Hhi. unfold paginate, Pagination.pages. simpl.
  set (pp := if per_page <? 1 then 20 else per_page).
  set (t := Z.of_nat (List.length rows)).
  intros H Hpp _ Hlo Hhi.
  assert (Hp : 1 <= page).
  { destruct (Z.eqb_spec t 0); [lia|].
    assert (0 <= (t + pp - 1) / pp) by (apply Z.div_pos; unfold t; lia). lia. }
  destruct (Z.ltb_spec page 1) as [?|_]; [lia|].
  split; [|reflexivity].
  unfold limit_offset. rewrite skipn_all2; [apply firstn_nil|].
  assert (t <= (page - 1) * pp) by (destruct (Z.eqb t 0); nia).
  unfold t in *. lia.
Qed.


(** ** Ordering *)

Lemma string_leb_trans (a b c : string) :
  String.leb a b = true -> String.leb b c = true -> String.leb a c = true.
Proof.
  unfold String.leb. revert b c.
  induction a as [|x a IH]; intros [|y b] [|z c]; simpl; try easy.
  unfold Ascii.compare.
  destruct (N.compare_spec (N_of_ascii x) (N_of_ascii y));
    destruct (N.compare_spec (N_of_ascii y) (N_of_ascii z));
    destruct (N.compare_spec (N_of_ascii x) (N_of_ascii z));
    try easy; try lia.
  apply IH.
Qed.

Lemma null_leb_total (a b : option string) : null_leb a b = true \/ null_leb b a = true.
Proof. destruct a, b; simpl; auto. apply String.leb_total. Qed.

Lemma null_leb_trans (a b c : option string) :
  null_leb a b = true -> null_leb b c = true -> null_leb a c = true.
Proof. destruct a, b, c; simpl; try easy. apply string_leb_trans. Qed.

Section Sorting.
Context {A : Type} (le : A -> A -> bool).
Hypothesis le_total : forall a b, le a b = true \/ le b a = true.
Hypothesis le_trans : forall a b c, le a b = true -> le b c = true -> le a c = true.

Lemma insert_row_perm (x : A) (l : list A) : Permutation (insert_row le x l) (x :: l).
Proof.
  induction l as [|y l IH]; simpl; [apply Permutation_refl|].
  destruct (le x y); [apply Permutation_refl|].
  eapply perm_trans; [apply perm_skip, IH | apply perm_swap].
Qed.

Lemma order_by_perm (l : list A) : Permutation (order_by le l) l.
Proof.
  induction l as [|x l IH]; simpl; [constructor|].
  eapply perm_trans; [apply insert_row_perm | apply perm_skip, IH].
Qed.

Lemma insert_row_sorted (x : A) (l : list A) :
  StronglySorted (fun a b => le a b = true) l ->
  StronglySorted (fun a b => le a b = true) (insert_row le x l).
Proof.
  induction 1 as [|y l Hl IH Hy]; simpl.
  - constructor; constructor.
  - destruct (le x y) eqn:E.
    + constructor; [constructor; assumption|].
      constructor; [exact E|].
      eapply Forall_impl; [|exact Hy]. intros z Hz. exact (le_trans _ _ _ E Hz).
    + constructor; [exact IH|].
      eapply Permutation_Forall; [apply Permutation_sym, insert_row_perm|].
      constructor; [|exact Hy].
      destruct (le_total x y) as [F|F]; [congruence | exact F].
Qed.

Lemma order_by_sorted (l : list A) :
  StronglySorted (fun a b => le a b = true) (order_by le l).
Proof.
  induction l as [|x l IH]; simpl; [constructor | apply insert_row_sorted, IH].
Qed.
End Sorting.

Lemma sorted_skipn {A : Type} (R : A -> A -> Prop) (n : nat) (l : list A) :
  StronglySorted R l -> StronglySorted R (skipn n l).
Proof.
  revert l. induction n as [|n IH]; intros l H; [exact H|].
  destruct H; simpl; [constructor | apply IH; assumption].
Qed.

Lemma sorted_firstn {A : Type} (R : A -> A -> Prop) (n : nat) (l : list A) :
  StronglySorted R l -> StronglySorted R (firstn n l).
Proof.
  revert l. induction n as [|n IH]; intros l H; [constructor|].
  destruct H as [|x l Hl Hx]; simpl; constructor; [apply IH, Hl|].
  apply Forall_forall. intros y Hy.
  rewrite Forall_forall in Hx. apply Hx.
  rewrite <- (firstn_skipn n l). apply in_or_app. left. exact Hy.
Qed.

Lemma sorted_limit_offset (R : Book.t -> Book.t -> Prop) (limit offset : Z) (l : list Book.t) :
  StronglySorted R l -> StronglySorted R (limit_offset limit offset l).
Proof. intros H. apply sorted_firstn, sorted_skipn, H. Qed.

Lemma limit_offset_incl (limit offset : Z) (l : list Book.t) (b : Book.t) :
  In b (limit_offset limit offset l) -> In b l.
Proof.
  unfold limit_offset. intros H.
  rewrite <- (firstn_skipn (Z.to_nat offset) l). apply in_or_app. right.
  rewrite <- (firstn_skipn (Z.to_nat limit) (skipn (Z.to_nat offset) l)).
  apply in_or_app. left. exact H.
Qed.

Lemma sorted_query_perm (sort_by : string) (l : list Book.t) :
  Permutation (sorted_query sort_by l) l.
Proof.
  unfold sorted_query.
  destruct (String.eqb sort_by "title"); [apply order_by_perm|].
  destruct (String.eqb sort_by "date"); [apply order_by_perm | apply Permutation_refl].
Qed.

(** Serialising rows whose category reference resolves to [c]. *)
Lemma mapM_to_dict (s : Store) (c : Category.t) (l : list Book.t) :
  (forall b, In b l -> category_of s b = Some c) ->
  mapM (to_dict s) l = Ok (map (fun b => book_dict b c) l).
Proof.
  induction l as [|b l IH]; intros H; simpl; [reflexivity|].
  unfold to_dict at 1. rewrite (H b (or_introl eq_refl)). simpl.
  rewrite IH; [reflexivity|]. intros b' Hb'. apply H. right. exact Hb'.
Qed.

(** The row a foreign key equal to the id of a stored category loads. *)
Lemma category_of_resolves (s : Store) (n : string) (c : Category.t) :
  category_by_name s n = Some c ->
  exists c', Category.id c' = Category.id c
    /\ forall b, Book.category_id b = Category.id c -> category_of s b = Some c'.
Proof.
  intros H. apply find_some in H. destruct H as [Hin _].
  destruct (find (fun c' => Category.id c' =? Category.id c) (category_table s))
    as [c'|] eqn:F.
  - exists c'. split.
    + apply find_some in F. destruct F as [_ F]. lia.
    + intros b Hb. unfold category_of. rewrite Hb. exact F.
  - exfalso. apply (find_none _ _ F) in Hin. lia.
Qed.

(** ** Availability *)











(** ** Search by text *)

Lemma lower_app (a b : string) : lower (a ++ b) = lower a ++ lower b.
Proof. induction a as [|c a IH]; simpl; [reflexivity | now rewrite IH]. Qed.

Lemma lower_char_wildcard (c : ascii) : is_wildcard (lower_char c) = is_wildcard c.
Proof.
  destruct c as [[] [] [] [] [] [] [] []]; reflexivity.
Qed.

Lemma lower_wildcard_free (q : string) : wildcard_free (lower q) = wildcard_free q.
Proof.
  unfold wildcard_free. induction q as [|c q IH]; simpl; [reflexivity|].
  now rewrite lower_char_wildcard, IH.
Qed.

Lemma like_percent (text : string) : like "%" text = true.
Proof. induction text as [|c text IH]; simpl; [reflexivity | exact IH]. Qed.

(** A pattern [%p] matches when [p] matches some suffix. *)
Lemma like_leading_percent (p text : string) :
  like (String "%" p) text =
  like p text || match text with
                 | EmptyString => false
                 | String _ text' => like (String "%" p) text'
                 end.
Proof. destruct text; reflexivity. Qed.

(** A wildcard-free [p] followed by [%] matches the texts [p] starts. *)
Lemma like_trailing_percent (p text : string) :
  wildcard_free p = true -> like (p ++ "%") text = String.prefix p text.
Proof.
  unfold wildcard_free. revert text.
  induction p as [|c p IH]; intros text H.
  - rewrite like_percent. destruct text; reflexivity.
  - simpl in H. apply andb_prop in H. destruct H as [Hc Hp].
    unfold is_wildcard in Hc. apply negb_true_iff, orb_false_elim in Hc.
    destruct Hc as [H1 H2].
    change (String c p ++ "%") with (String c (p ++ "%")).
    cbn [like]. rewrite H1, H2.
    destruct text as [|d text]; [reflexivity|].
    rewrite IH by assumption. simpl.
    destruct (ascii_dec c d) as [->|N].
    + now rewrite Ascii.eqb_refl.
    + apply Ascii.eqb_neq in N. now rewrite N.
Qed.

Lemma like_substring (q text : string) :
  wildcard_free q = true -> like ("%" ++ q ++ "%") text = substring_of q text.
Proof.
  intros H. change ("%" ++ q ++ "%") with (String "%" (q ++ "%")).
  induction text as [|c text IH].
  - rewrite like_leading_percent, like_trailing_percent by assumption.
    simpl. now rewrite orb_false_r.
  - rewrite like_leading_percent, like_trailing_percent, IH by assumption.
    reflexivity.
Qed.

(** For a query without [%] and [_] the WHERE clause of [search] is the
    three-way, case-insensitive substring test. *)
Lemma text_match_substring (q : string) (b : Book.t) :
  wildcard_free q = true -> text_match q b = spec_match q b.
Proof.
  intros H. rewrite <- lower_wildcard_free in H.
  unfold text_match, spec_match, contains_ci, ilike.
  rewrite !lower_app. change (lower "%") with "%".
  destruct (Book.description b) as [d|];
    rewrite !(like_substring _ _ H);
    destruct (substring_of (lower q) (lower (Book.title b)));
    destruct (substring_of (lower q) (lower (Book.author b)));
    try reflexivity;
    destruct (substring_of (lower q) (lower d)); reflexivity.
Qed.

(** [search] on a non-empty query without wildcards and without category
    filter: the books that contain it, in table order, and their number. *)
Lemma search_substring (s : Store) (q : string) :
  truthy q = true -> wildcard_free q = true ->
  search_rows s q None = Ok (filter (spec_match q) (book_table s))
  /\ search s [("q", q)]
     = (results <- mapM (to_dict s) (filter (spec_match q) (book_table s)) ;;
        Ok (search_response results
              (Z.of_nat (List.length (filter (spec_match q) (book_table s)))))).
Proof.
  intros Hq Hw.
  assert (E : filter (text_match q) (book_table s) = filter (spec_match q) (book_table s)).
  { apply filter_ext. intros b. now apply text_match_substring. }
  split.
  - unfold search_rows. now rewrite E.
  - unfold search. change (args_get_str "q" "" [("q", q)]) with q. rewrite Hq.
    change (args_get "category" [("q", q)]) with (@None string).
    unfold search_rows. rewrite E. reflexivity.
Qed.

Example search_tolkien :
  search library [("q", "tolkien")]
    = Ok (search_response [book_dict hobbit (Category.mk 3 "Fiction" None None)] 1)
  /\ search library [("q", "TOLKIEN")] = search library [("q", "tolkien")].
Proof. split; reflexivity. Qed.

(** C1 fails on a query that holds a LIKE wildcard: the query [%] is put
    into the pattern as it is, so [search] returns every book, three of
    them here, although no title, author or description contains the
    character [%]; the query [_] does the same. *)
Theorem search_wildcard_matches_all :
  search library [("q", "%")]
    = Ok (search_response
            [ book_dict hobbit (Category.mk 3 "Fiction" None None);
              book_dict carrie (Category.mk 3 "Fiction" None None);
              book_dict sicp (Category.mk 8 "Technology" None None) ] 3)
  /\ search library [("q", "_")] = search library [("q", "%")]
  /\ filter (spec_match "%") (book_table library) = []
  /\ filter (spec_match "_") (book_table library) = [].
Proof. repeat split; reflexivity. Qed.

(** ** The category filter of search *)

(** A category parameter that [isdigit] rejects is skipped. *)
Lemma search_skips_non_digit (s : Store) (q cid : string) :
  isdigit cid = false ->
  search_rows s q (Some cid) = search_rows s q None
  /\ search s [("q", q); ("category", cid)] = search s [("q", q)].
Proof.
  intros H.
  assert (E : search_rows s q (Some cid) = search_rows s q None).
  { unfold search_rows. rewrite H, andb_false_r. reflexivity. }
  split; [exact E|].
  unfold search.
  change (args_get_str "q" "" [("q", q); ("category", cid)]) with q.
  change (args_get_str "q" "" [("q", q)]) with q.
  change (args_get "category" [("q", q); ("category", cid)]) with (Some cid).
  change (args_get "category" [("q", q)]) with (@None string).
  now rewrite E.
Qed.

Lemma all_chars_forallb (p : ascii -> bool) (s : string) :
  all_chars p s = forallb p (list_ascii_of_string s).
Proof. induction s as [|c s IH]; simpl; [reflexivity | now rewrite IH]. Qed.

Lemma decimal_not_space (c : ascii) : is_decimal c = true -> is_space c = false.
Proof. destruct c as [[] [] [] [] [] [] [] []]; first [discriminate | reflexivity]. Qed.

Lemma decimal_not_sign (c : ascii) :
  is_decimal c = true -> Ascii.eqb c "-" = false /\ Ascii.eqb c "+" = false.
Proof.
  destruct c as [[] [] [] [] [] [] [] []];
    first [discriminate | split; reflexivity].
Qed.

Lemma decimal_code (c : ascii) : is_decimal c = true -> 48 <= code c <= 57.
Proof.
  unfold is_decimal. intros H. apply andb_prop in H. destruct H as [H1 H2].
  apply Z.leb_le in H1, H2. lia.
Qed.

Lemma lstrip_decimal (l : list ascii) : forallb is_decimal l = true -> lstrip l = l.
Proof.
  destruct l as [|c l]; simpl; [reflexivity|]. intros H.
  apply andb_prop in H. destruct H as [H _].
  now rewrite (decimal_not_space c H).
Qed.

Lemma forallb_rev {A : Type} (p : A -> bool) (l : list A) :
  forallb p l = true -> forallb p (rev l) = true.
Proof.
  rewrite !forallb_forall. intros H x Hx. apply H. now apply in_rev.
Qed.

Lemma strip_decimal (l : list ascii) : forallb is_decimal l = true -> strip l = l.
Proof.
  intros H. unfold strip. rewrite (lstrip_decimal l H).
  rewrite (lstrip_decimal (rev l) (forallb_rev _ _ H)). apply rev_involutive.
Qed.

Lemma int_digits_decimal (l : list ascii) :
  forallb is_decimal l = true ->
  forall acc after_digit, 0 <= acc -> (l <> [] \/ after_digit = true) ->
  exists n, int_digits acc after_digit l = Some n /\ 0 <= n.
Proof.
  induction l as [|c l IH]; intros H acc after_digit Ha Hne.
  - destruct Hne as [Hne| ->]; [contradiction|]. exists acc. split; [reflexivity | exact Ha].
  - simpl in H. apply andb_prop in H. destruct H as [Hc Hl].
    cbn [int_digits]. rewrite Hc. apply (IH Hl); [|right; reflexivity].
    apply decimal_code in Hc. lia.
Qed.

(** On a non-empty string of decimal digits [int] returns a natural number. *)
Lemma py_int_decimal (cid : string) :
  truthy cid = true -> all_chars is_decimal cid = true ->
  exists n, py_int cid = Some n /\ 0 <= n.
Proof.
  intros Ht Hd. rewrite all_chars_forallb in Hd. unfold py_int.
  rewrite (strip_decimal _ Hd).
  destruct cid as [|c cid]; [discriminate|].
  cbn [list_ascii_of_string forallb] in Hd |- *.
  pose proof Hd as Hd'. apply andb_prop in Hd'. destruct Hd' as [Hc Hl].
  destruct (decimal_not_sign c Hc) as [-> ->]. cbn [int_digits]. rewrite Hc.
  apply (int_digits_decimal _ Hl); [|right; reflexivity].
  apply decimal_code in Hc. lia.
Qed.

Lemma decimal_isdigit (cid : string) :
  truthy cid = true -> all_chars is_decimal cid = true -> isdigit cid = true.
Proof.
  intros Ht Hd. unfold isdigit. rewrite Ht. simpl.
  induction cid as [|c cid IH]; [reflexivity|].
  simpl in Hd |- *. apply andb_prop in Hd. destruct Hd as [Hc Hl].
  unfold is_digit_char. rewrite Hc. simpl.
  destruct cid; [reflexivity | now apply IH].
Qed.

(** A category parameter made of decimal digits restricts the matches to
    the books of the category it names. *)
Lemma search_filters_decimal (s : Store) (q cid : string) :
  truthy cid = true -> all_chars is_decimal cid = true ->
  exists n, py_int cid = Some n /\ 0 <= n
    /\ search_rows s q (Some cid)
       = Ok (filter (fun b => Book.category_id b =? n)
               (filter (text_match q) (book_table s))).
Proof.
  intros Ht Hd. destruct (py_int_decimal cid Ht Hd) as (n & Hn & Hpos).
  exists n. repeat split; trivial.
  unfold search_rows. now rewrite Ht, (decimal_isdigit cid Ht Hd), Hn.
Qed.

(** C7 fails on a category parameter of digits that are not decimal: the
    superscript two passes [isdigit], [int] then raises ValueError, and
    the request fails where the same query without the parameter returns
    two books. *)
Theorem search_superscript_category_raises :
  isdigit superscript_two = true
  /\ all_chars is_decimal superscript_two = false
  /\ py_int superscript_two = None
  /\ search library [("q", "a"); ("category", superscript_two)] = Raise ValueError
  /\ search library [("q", "a")]
     = Ok (search_response
             [ book_dict carrie (Category.mk 3 "Fiction" None None);
               book_dict sicp (Category.mk 8 "Technology" None None) ] 2).
Proof. repeat split; reflexivity. Qed.

(** * Further properties of the code *)

(** ** The seeder and the key constraints *)

Lemma next_id_fresh (l : list Category.t) (c : Category.t) :
  In c l -> Category.id c < next_id l.
Proof.
  unfold next_id. induction l as [|a l IH]; simpl; [tauto|].
  intros [->|H]; [lia|]. specialize (IH H). lia.
Qed.

Lemma add_category_unique (s s' : Store) (n : string) :
  unique_keys s -> add_category s n = Ok s' -> unique_keys s'.
Proof.
  unfold add_category, unique_keys. intros [Hid Hname].
  destruct (existsb _ (category_table s)) eqn:E; [discriminate|].
  intros H. injection H as <-. simpl. rewrite !map_app. simpl.
  split; apply NoDup_app; trivial; try (constructor; [simpl; tauto | constructor]).
  - intros a Ha [<-|[]]. apply in_map_iff in Ha. destruct Ha as (c & Hc & Hin).
    apply next_id_fresh in Hin. lia.
  - intros a Ha [<-|[]]. apply in_map_iff in Ha. destruct Ha as (c & Hc & Hin).
    assert (F : existsb (fun c => String.eqb (Category.name c) n) (category_table s) = true).
    { apply existsb_exists. exists c. split; [exact Hin|]. rewrite Hc. apply String.eqb_refl. }
    congruence.
Qed.

Lemma seed_unique (names : list string) :
  forall s s', unique_keys s -> seed names s = Ok s' -> unique_keys s'.
Proof.
  induction names as [|n rest IH]; intros s s' Hu; simpl.
  - intros H. injection H as <-. exact Hu.
  - destruct (category_by_name s n); [apply IH, Hu|].
    destruct (add_category s n) as [s1| |e] eqn:A; simpl; try discriminate.
    apply IH. exact (add_category_unique s s1 n Hu A).
Qed.

Lemma seed_resolves (names : list string) (s s' : Store) (n : string) :
  seed names s = Ok s' -> In n names ->
  exists c, category_by_name s' n = Some c /\ Category.name c = n.
Proof.
  intros Hs Hn.
  destruct (seed_counts names s) as (s2 & Hs2 & _ & _ & Hc).
  assert (s2 = s') by congruence. subst s2.
  unfold category_by_name.
  destruct (find _ (category_table s')) as [c|] eqn:F.
  - exists c. split; [reflexivity|]. apply find_some in F. destruct F as [_ F].
    now apply String.eqb_eq.
  - apply find_name_none_count in F. rewrite Hc in F.
    assert (E : existsb (String.eqb n) names = true).
    { apply existsb_exists. exists n. split; [exact Hn | apply String.eqb_refl]. }
    rewrite E in F.
    destruct (Nat.eqb_spec (count_name n (category_table s)) 0); congruence.
Qed.

(** X1: the seeder keeps the key constraints of the category table: when
    ids and names are free of duplicates before [db_init], they are
    after it. *)
Theorem db_init_keeps_unique_keys (s : Store) :
  unique_keys s ->
  exists s', db_init s = Ok s' /\ unique_keys s'.
Proof.
  intros Hu. unfold db_init.
  destruct (seed_counts categories s) as (s' & Hs & _).
  exists s'. split; [exact Hs | exact (seed_unique categories s s' Hu Hs)].
Qed.

Lemma db_init_keeps_unique_keys_witness :
  exists s', db_init fiction_only = Ok s' /\ unique_keys s'.
Proof.
  apply (db_init_keeps_unique_keys fiction_only).
  split; simpl; repeat constructor; simpl; tauto.
Defined.



(** ** Pages *)

Lemma firstn_add {A : Type} (a b : nat) (l : list A) :
  firstn (a + b) l = (firstn a l ++ firstn b (skipn a l))%list.
Proof.
  revert l. induction a as [|a IH]; intros l; [reflexivity|].
  destruct l as [|x l]; simpl; [now rewrite firstn_nil | now rewrite IH].
Qed.

Lemma chunks_concat {A : Type} (k : nat) (l : list A) (n : nat) :
  List.concat (map (fun p => firstn k (skipn ((p - 1) * k) l)) (seq 1 n)) = firstn (n * k) l.
Proof.
  induction n as [|n IH]; [reflexivity|].
  rewrite seq_S, map_app, concat_app, IH. simpl.
  rewrite app_nil_r, Nat.sub_0_r.
  replace (k + n * k)%nat with (n * k + k)%nat by lia.
  now rewrite firstn_add.
Qed.

(** The items of page [p], for [p] from 1, in terms of the page size. *)
Lemma paginate_items (rows : list Book.t) (p : nat) (per_page : Z) :
  (1 <= p)%nat ->
  Pagination.items (paginate rows (Z.of_nat p) per_page)
  = firstn (Z.to_nat (if per_page <? 1 then 20 else per_page))
      (skipn ((p - 1) * Z.to_nat (if per_page <? 1 then 20 else per_page)) rows).
Proof.
  intros Hp. unfold paginate, limit_offset. cbn [Pagination.items].
  set (pp := if per_page <? 1 then 20 else per_page).
  assert (Hpp : 1 <= pp) by (unfold pp; destruct (Z.ltb_spec per_page 1); lia).
  destruct (Z.ltb_spec (Z.of_nat p) 1) as [?|_]; [lia|].
  f_equal. f_equal. nia.
Qed.

(** X4: the pages of a listing partition its rows: for a page size of at
    least 1, the items of pages 1 to the page count, one after the
    other, are the rows exactly, each once and in order. *)
Theorem pages_partition_rows (rows : list Book.t) (per_page : Z) :
  1 <= per_page ->
  List.concat (map (fun p => Pagination.items (paginate rows (Z.of_nat p) per_page))
            (seq 1 (Z.to_nat (Pagination.pages (paginate rows 1 per_page)))))
  = rows.
Proof.
  intros _.
  destruct (pages_ceiling rows 1 per_page) as (_ & Hpp & Ht & _ & Hhi).
  revert Hpp Ht Hhi.
  set (n := Pagination.pages (paginate rows 1 per_page)).
  change (Pagination.per_page (paginate rows 1 per_page))
    with (if per_page <? 1 then 20 else per_page).
  set (pp := if per_page <? 1 then 20 else per_page).
  intros Hpp Ht Hhi.
  rewrite (map_ext_in _ (fun p => firstn (Z.to_nat pp) (skipn ((p - 1) * Z.to_nat pp) rows))).
  - rewrite chunks_concat. apply firstn_all2. rewrite Ht in Hhi. nia.
  - intros p Hp. apply in_seq in Hp. apply paginate_items. lia.
Qed.

Lemma pages_partition_rows_witness :
  List.concat (map (fun p => Pagination.items
                           (paginate (fiction_shelf 25) (Z.of_nat p) 10))
            (seq 1 (Z.to_nat (Pagination.pages (paginate (fiction_shelf 25) 1 10)))))
  = fiction_shelf 25.
Proof.
  apply (pages_partition_rows (fiction_shelf 25) 10). lia.
Defined.

Lemma paginate_items_length (rows : list Book.t) (page per_page : Z) :
  Z.of_nat (List.length (Pagination.items (paginate rows page per_page)))
  = Z.min (Pagination.per_page (paginate rows page per_page))
      (Z.max 0 (Z.of_nat (List.length rows)
                - (Pagination.page (paginate rows page per_page) - 1)
                  * Pagination.per_page (paginate rows page per_page))).
Proof.
  destruct (pages_ceiling rows page per_page) as (Hp & Hpp & _).
  revert Hp Hpp. unfold paginate, limit_offset.
  cbn [Pagination.items Pagination.page Pagination.per_page].
  intros Hp Hpp. rewrite length_firstn, length_skipn. nia.
Qed.

(** X5: a page never holds more rows than the page size; every page
    before the last is full and the last page is not empty; and
    [has_next] holds exactly when the page after the one served holds a
    row. *)
Theorem page_sizes (rows : list Book.t) (page per_page : Z) :
  Z.of_nat (List.length (Pagination.items (paginate rows page per_page)))
    <= Pagination.per_page (paginate rows page per_page)
  /\ (Pagination.page (paginate rows page per_page)
        < Pagination.pages (paginate rows page per_page) ->
      Z.of_nat (List.length (Pagination.items (paginate rows page per_page)))
        = Pagination.per_page (paginate rows page per_page))
  /\ (Pagination.page (paginate rows page per_page)
        = Pagination.pages (paginate rows page per_page) ->
      Pagination.items (paginate rows page per_page) <> [])
  /\ (Pagination.has_next (paginate rows page per_page) = true <->
      Pagination.items
        (paginate rows (Pagination.page (paginate rows page per_page) + 1) per_page)
      <> []).
Proof.
  pose proof (paginate_items_length rows page per_page) as Hlen.
  pose proof (paginate_items_length rows
                (Pagination.page (paginate rows page per_page) + 1) per_page) as Hnext.
  destruct (pages_ceiling rows page per_page) as (Hp & Hpp & Ht & Hlo & Hhi).
  assert (Hn : Pagination.page
                 (paginate rows (Pagination.page (paginate rows page per_page) + 1) per_page)
               = Pagination.page (paginate rows page per_page) + 1).
  { unfold paginate at 1. cbn [Pagination.page].
    destruct (Z.ltb_spec (Pagination.page (paginate rows page per_page) + 1) 1); lia. }
  rewrite Hn in Hnext.
  change (Pagination.per_page
            (paginate rows (Pagination.page (paginate rows page per_page) + 1) per_page))
    with (Pagination.per_page (paginate rows page per_page)) in Hnext.
  unfold Pagination.has_next.
  change (Pagination.pages (paginate rows page per_page))
    with (Pagination.pages (paginate rows page per_page)) in *.
  set (pg := paginate rows page per_page) in *.
  set (nxt := Pagination.items (paginate rows (Pagination.page pg + 1) per_page)) in *.
  set (its := Pagination.items pg) in *.
  rewrite Ht in Hlo, Hhi.
  assert (Hits : its = [] -> Z.of_nat (List.length its) = 0) by (now intros ->).
  assert (Hnxt : nxt = [] <-> Z.of_nat (List.length nxt) = 0).
  { destruct nxt; simpl; split; intros; [reflexivity | reflexivity | discriminate | lia]. }
  revert Hlen Hnext Hits Hnxt.
  generalize (Z.of_nat (List.length its)) (Z.of_nat (List.length nxt))
    (Z.of_nat (List.length rows)) (Pagination.page pg) (Pagination.pages pg)
    (Pagination.per_page pg) Hp Hpp Hlo Hhi.
  clear. intros L Ln T P N pp Hp Hpp Hlo Hhi Hlen Hnext Hits Hnxt.
  replace (P + 1 - 1) with P in Hnext by lia.
  split; [lia|]. split; [intros H; nia|]. split.
  - intros H E. apply Hits in E. subst P. nia.
  - rewrite Z.ltb_lt, Hnxt. split; intros H; nia.
Qed.

(** ** Order across pages *)

Lemma in_skipn {A : Type} (n : nat) (l : list A) (a : A) : In a (skipn n l) -> In a l.
Proof.
  intros H. rewrite <- (firstn_skipn n l). apply in_or_app. right. exact H.
Qed.

Lemma in_firstn {A : Type} (n : nat) (l : list A) (a : A) : In a (firstn n l) -> In a l.
Proof.
  intros H. rewrite <- (firstn_skipn n l). apply in_or_app. left. exact H.
Qed.

Lemma sorted_app_cross {A : Type} (R : A -> A -> Prop) (l1 l2 : list A) (a b : A) :
  StronglySorted R (l1 ++ l2) -> In a l1 -> In b l2 -> R a b.
Proof.
  induction l1 as [|x l1 IH]; simpl; [tauto|].
  intros H [->|Ha] Hb; inversion H as [|? ? Hs Hf]; subst.
  - rewrite Forall_forall in Hf. apply Hf. apply in_or_app. right. exact Hb.
  - now apply IH.
Qed.

(** In a sorted list every row of an earlier page precedes every row of a
    later page. *)
Lemma sorted_pages_cross (R : Book.t -> Book.t -> Prop) (rows : list Book.t)
  (p1 p2 per_page : Z) (a b : Book.t) :
  StronglySorted R rows -> 1 <= p1 < p2 ->
  In a (Pagination.items (paginate rows p1 per_page)) ->
  In b (Pagination.items (paginate rows p2 per_page)) ->
  R a b.
Proof.
  intros Hs Hp Ha Hb.
  replace p1 with (Z.of_nat (Z.to_nat p1)) in Ha by lia.
  replace p2 with (Z.of_nat (Z.to_nat p2)) in Hb by lia.
  rewrite paginate_items in Ha, Hb by lia.
  set (k := Z.to_nat (if per_page <? 1 then 20 else per_page)) in *.
  rewrite firstn_skipn_comm in Ha. apply in_skipn in Ha.
  apply in_firstn in Hb.
  replace ((Z.to_nat p2 - 1) * k)%nat
    with (((Z.to_nat p2 - 1) * k - ((Z.to_nat p1 - 1) * k + k))
          + ((Z.to_nat p1 - 1) * k + k))%nat in Hb by nia.
  rewrite <- skipn_skipn in Hb. apply in_skipn in Hb.
  apply (sorted_app_cross R (firstn ((Z.to_nat p1 - 1) * k + k) rows)
           (skipn ((Z.to_nat p1 - 1) * k + k) rows)); trivial.
  now rewrite firstn_skipn.
Qed.

(** X6: the order of a sorted API listing holds across pages, not only
    inside one: with [sort_by=title] every book of an earlier page has a
    title at most that of every book of a later page, and with
    [sort_by=date] a published_date at least that of every book of a
    later page (books without a date count as lowest). *)
Theorem sorted_listing_across_pages (rows : list Book.t) (p1 p2 per_page : Z)
  (a b : Book.t) :
  1 <= p1 < p2 ->
  (In a (Pagination.items (paginate (sorted_query "title" rows) p1 per_page)) ->
   In b (Pagination.items (paginate (sorted_query "title" rows) p2 per_page)) ->
   String.leb (Book.title a) (Book.title b) = true)
  /\ (In a (Pagination.items (paginate (sorted_query "date" rows) p1 per_page)) ->
      In b (Pagination.items (paginate (sorted_query "date" rows) p2 per_page)) ->
      null_leb (Book.published_date b) (Book.published_date a) = true).
Proof.
  intros Hp. split; intros Ha Hb.
  - apply (sorted_pages_cross (fun a b => title_asc a b = true)
             (sorted_query "title" rows) p1 p2 per_page a b); trivial.
    apply order_by_sorted; unfold title_asc; intros.
    + apply String.leb_total.
    + eapply string_leb_trans; eassumption.
  - apply (sorted_pages_cross (fun a b => date_desc a b = true)
             (sorted_query "date" rows) p1 p2 per_page a b); trivial.
    apply order_by_sorted; unfold date_desc; intros.
    + apply null_leb_total.
    + eapply null_leb_trans; eassumption.
Qed.

Lemma sorted_listing_across_pages_witness :
  String.leb (Book.title carrie) (Book.title hobbit) = true
  /\ null_leb (Book.published_date hobbit) (Book.published_date carrie) = true.
Proof.
  split.
  - apply (proj1 (sorted_listing_across_pages [hobbit; carrie] 1 2 1 carrie hobbit
                    ltac:(lia))); simpl; tauto.
  - apply (proj2 (sorted_listing_across_pages [hobbit; carrie] 1 2 1 carrie hobbit
                    ltac:(lia))); simpl; tauto.
Defined.

(** ** Request parameters of the listings *)

(** X7: a [page] or [per_page] parameter that is no integer literal is
    ignored: the category page and the API listing answer as if the
    parameter were absent. *)
Theorem malformed_page_ignored (s : Store) (category_name v : string) (rest : Args) :
  py_int v = None ->
  (args_get "page" rest = None ->
   category s category_name (("page", v) :: rest) = category s category_name rest
   /\ api_category_books s category_name (("page", v) :: rest)
      = api_category_books s category_name rest)
  /\ (args_get "per_page" rest = None ->
      category s category_name (("per_page", v) :: rest) = category s category_name rest
      /\ api_category_books s category_name (("per_page", v) :: rest)
         = api_category_books s category_name rest).
Proof.
  intros Hv. split; intros Hr.
  - assert (E : args_get_int "page" 1 (("page", v) :: rest) = args_get_int "page" 1 rest).
    { unfold args_get_int. simpl. now rewrite Hv, Hr. }
    unfold category, api_category_books. rewrite E. split; reflexivity.
  - assert (E : args_get_int "per_page" 10 (("per_page", v) :: rest)
                = args_get_int "per_page" 10 rest).
    { unfold args_get_int. simpl. now rewrite Hv, Hr. }
    unfold category, api_category_books. rewrite E. split; reflexivity.
Qed.

Lemma malformed_page_ignored_witness :
  category big_library "Fiction" [("page", "two")] = category big_library "Fiction" []
  /\ api_category_books big_library "Fiction" [("per_page", "1.5")]
     = api_category_books big_library "Fiction" [].
Proof.
  split.
  - exact (proj1 (proj1 (malformed_page_ignored big_library "Fiction" "two" [] eq_refl)
                    eq_refl)).
  - exact (proj2 (proj2 (malformed_page_ignored big_library "Fiction" "1.5" [] eq_refl)
                    eq_refl)).
Defined.












(** ** Search *)

Lemma mapM_length {A B : Type} (f : A -> outcome B) (l : list A) (l' : list B) :
  mapM f l = Ok l' -> List.length l' = List.length l.
Proof.
  revert l'. induction l as [|a l IH]; simpl; intros l' H.
  - injection H as <-. reflexivity.
  - destruct (f a) as [b| |e]; simpl in H; try discriminate.
    destruct (mapM f l) as [bs| |e]; simpl in H; try discriminate.
    injection H as <-. simpl. now rewrite (IH bs).
Qed.

(** Rows whose references resolve serialise. *)
Lemma mapM_to_dict_ok (s : Store) (l : list Book.t) :
  (forall b, In b l -> category_of s b <> None) ->
  exists ds, mapM (to_dict s) l = Ok ds.
Proof.
  induction l as [|b l IH]; intros H; simpl; [eexists; reflexivity|].
  destruct IH as (ds & Hds); [intros b' Hb'; apply H; now right|].
  unfold to_dict at 1. destruct (category_of s b) as [c|] eqn:E.
  - simpl. rewrite Hds. simpl. eexists. reflexivity.
  - exfalso. apply (H b); [now left | exact E].
Qed.


Lemma search_rows_incl (s : Store) (q : string) (cid : option string) (rows : list Book.t) :
  search_rows s q cid = Ok rows ->
  forall b, In b rows -> In b (book_table s) /\ text_match q b = true.
Proof.
  unfold search_rows. intros H b Hb.
  assert (F : forall l, In b l -> incl l (filter (text_match q) (book_table s)) ->
                        In b (book_table s) /\ text_match q b = true).
  { intros l Hl Hi. apply Hi in Hl. now apply filter_In in Hl. }
  destruct cid as [cid|].
  - destruct (truthy cid && isdigit cid).
    + destruct (py_int cid); [|discriminate]. injection H as <-.
      apply (F _ Hb). intros x Hx. now apply filter_In in Hx.
    + injection H as <-. apply (F _ Hb). apply incl_refl.
  - injection H as <-. apply (F _ Hb). apply incl_refl.
Qed.

(** X12: whenever [search] answers, its [count] is the number of entries
    of its [results]. *)
Theorem search_count_is_length (s : Store) (args : Args) (j : json) :
  search s args = Ok j ->
  exists results, j = search_response results (Z.of_nat (List.length results)).
Proof.
  unfold search. destruct (truthy (args_get_str "q" "" args)).
  - destruct (search_rows s _ _) as [rows| |e]; simpl; try discriminate.
    destruct (mapM (to_dict s) rows) as [ds| |e] eqn:M; simpl; try discriminate.
    intros H. injection H as <-. exists ds. now rewrite (mapM_length _ _ _ M).
  - intros H. injection H as <-. exists []. reflexivity.
Qed.

Lemma search_count_is_length_witness :
  exists results,
    search_response [book_dict hobbit (Category.mk 3 "Fiction" None None)] 1
    = search_response results (Z.of_nat (List.length results)).
Proof.
  apply (search_count_is_length library [("q", "tolkien")]). reflexivity.
Defined.



Lemma lower_truthy (q : string) : truthy (lower q) = truthy q.
Proof. destruct q; reflexivity. Qed.

Lemma text_match_lower (q q' : string) (b : Book.t) :
  lower q = lower q' -> text_match q b = text_match q' b.
Proof.
  intros H. unfold text_match, ilike. rewrite !lower_app, H. reflexivity.
Qed.

(** X17: [search] does not tell apart two queries that differ in the
    case of letters A to Z only, with or without other parameters. *)
Theorem search_ignores_query_case (s : Store) (q q' : string) (rest : Args) :
  lower q = lower q' ->
  search s (("q", q) :: rest) = search s (("q", q') :: rest).
Proof.
  intros H. unfold search.
  change (args_get_str "q" "" (("q", q) :: rest)) with q.
  change (args_get_str "q" "" (("q", q') :: rest)) with q'.
  change (args_get "category" (("q", q) :: rest)) with (args_get "category" rest).
  change (args_get "category" (("q", q') :: rest)) with (args_get "category" rest).
  assert (Ht : truthy q = truthy q').
  { rewrite <- (lower_truthy q), <- (lower_truthy q'). now rewrite H. }
  assert (Hr : search_rows s q (args_get "category" rest)
               = search_rows s q' (args_get "category" rest)).
  { unfold search_rows.
    rewrite (filter_ext (text_match q) (text_match q'))
      by (intros b; now apply text_match_lower).
    reflexivity. }
  now rewrite Ht, Hr.
Qed.

Lemma search_ignores_query_case_witness :
  search library [("q", "HoBBiT"); ("category", "3")]
  = search library [("q", "hobbit"); ("category", "3")].
Proof.
  apply (search_ignores_query_case library "HoBBiT" "hobbit" [("category", "3")]).
  reflexivity.
Defined.

(** ** Book pages *)

Lemma find_book_unique (l : list Book.t) (b : Book.t) :
  NoDup (map Book.id l) -> In b l ->
  find (fun x => Book.id x =? Book.id b) l = Some b.
Proof.
  induction l as [|a l IH]; simpl; [tauto|].
  intros H Hb. inversion H as [|? ? Ha Hl]; subst.
  destruct (Z.eqb_spec (Book.id a) (Book.id b)) as [E|N].
  - destruct Hb as [->|Hb]; [reflexivity|].
    exfalso. apply Ha. rewrite E. now apply in_map.
  - destruct Hb as [->|Hb]; [contradiction | now apply IH].
Qed.

(** X18: when the ids of the book table are free of duplicates, every
    book that [search] selects, that a category page shows or that is
    stored at all opens with [book_detail] under its id, as that very
    book. *)
Theorem listed_book_opens (s : Store) :
  unique_book_ids s ->
  (forall b, In b (book_table s) -> book_detail s (Book.id b) = Ok b)
  /\ (forall q cid rows b,
         search_rows s q cid = Ok rows -> In b rows ->
         book_detail s (Book.id b) = Ok b)
  /\ (forall category_name args p b,
         category s category_name args = Ok p -> In b (page_books p) ->
         book_detail s (Book.id b) = Ok b).
Proof.
  intros Hu.
  assert (H : forall b, In b (book_table s) -> book_detail s (Book.id b) = Ok b).
  { intros b Hb. unfold book_detail, get_or_404.
    now rewrite (find_book_unique _ b Hu Hb). }
  split; [exact H|]. split.
  - intros q cid rows b Hr Hb. apply H.
    exact (proj1 (search_rows_incl _ _ _ _ Hr b Hb)).
  - intros category_name args p b Hp Hb. apply H.
    unfold category in Hp.
    destruct (category_by_name s category_name) as [c|]; [|discriminate].
    simpl in Hp. injection Hp as <-. simpl in Hb.
    apply limit_offset_incl in Hb. unfold books_in in Hb.
    now apply filter_In in Hb.
Qed.

Lemma listed_book_opens_witness :
  book_detail library 2 = Ok carrie.
Proof.
  assert (U : unique_book_ids library).
  { unfold unique_book_ids. simpl. repeat constructor; simpl; intuition discriminate. }
  exact (proj1 (listed_book_opens library U) carrie ltac:(simpl; tauto)).
Defined.

(** ** Restart *)

Lemma find_app_some {A : Type} (f : A -> bool) (l1 l2 : list A) (a : A) :
  find f l1 = Some a -> find f (l1 ++ l2) = Some a.
Proof.
  induction l1 as [|x l1 IH]; simpl; [discriminate|].
  destruct (f x); [trivial | exact IH].
Qed.

Lemma mapM_ext_in {A B : Type} (f g : A -> outcome B) (l : list A) :
  (forall a, In a l -> f a = g a) -> mapM f l = mapM g l.
Proof.
  induction l as [|a l IH]; intros H; simpl; [reflexivity|].
  rewrite (H a (or_introl eq_refl)), IH; [reflexivity|].
  intros a' Ha'. apply H. now right.
Qed.

(** X20: running [db_init] again, as every start of the application
    does, changes no answer of [search] on a store in which every book
    references a stored category. *)
Theorem db_init_preserves_search (s : Store) :
  references_resolve s ->
  exists s', db_init s = Ok s'
    /\ references_resolve s'
    /\ forall args, search s' args = search s args.
Proof.
  intros Hr. unfold db_init.
  destruct (seed_counts categories s) as (s' & Hs & Hb & (added & Ha) & _).
  assert (Hcat : forall b, In b (book_table s) -> category_of s' b = category_of s b).
  { intros b Hin. unfold category_of. rewrite Ha.
    destruct (find (fun c => Category.id c =? Book.category_id b) (category_table s))
      as [c|] eqn:F.
    - now apply find_app_some.
    - exfalso. exact (Hr b Hin F). }
  exists s'. split; [exact Hs|]. split.
  - intros b Hin. rewrite Hb in Hin. rewrite (Hcat b Hin). now apply Hr.
  - intros args. unfold search.
    destruct (truthy (args_get_str "q" "" args)); [|reflexivity].
    assert (R : search_rows s' (args_get_str "q" "" args) (args_get "category" args)
                = search_rows s (args_get_str "q" "" args) (args_get "category" args)).
    { unfold search_rows. now rewrite Hb. }
    rewrite R.
    destruct (search_rows s _ _) as [rows| |e] eqn:Q; try reflexivity.
    cbv beta iota delta [bind].
    rewrite (mapM_ext_in (to_dict s') (to_dict s)); [reflexivity|].
    intros b Hin. unfold to_dict.
    now rewrite (Hcat b (proj1 (search_rows_incl _ _ _ _ Q b Hin))).
Qed.

Lemma db_init_preserves_search_witness :
  exists s', db_init (mkStore [Category.mk 3 "Fiction" None None] [hobbit; carrie]) = Ok s'
    /\ references_resolve s'
    /\ forall args,
         search s' args
         = search (mkStore [Category.mk 3 "Fiction" None None] [hobbit; carrie]) args.
Proof.
  apply (db_init_preserves_search
           (mkStore [Category.mk 3 "Fiction" None None] [hobbit; carrie])).
  intros b Hb. simpl in Hb.
  repeat (destruct Hb as [<-|Hb]; [discriminate|]). destruct Hb.
Defined.

(** ** The category page *)

(** X21: a category page that is served shows the category of the
    requested name and only stored books of that category; its book
    count, which the handler queries a second time, is the total of its
    pagination, and the books shown are the items of that pagination. *)
Theorem category_page_sound (s : Store) (category_name : string) (args : Args)
  (p : CategoryPage) :
  category s category_name args = Ok p ->
  Category.name (page_category p) = category_name
  /\ In (page_category p) (index s)
  /\ (forall b, In b (page_books p) ->
                In b (book_table s)
                /\ Book.category_id b = Category.id (page_category p))
  /\ page_total_books p = Pagination.total (page_pagination p)
  /\ page_books p = Pagination.items (page_pagination p).
Proof.
  unfold category.
  destruct (category_by_name s category_name) as [c|] eqn:Hc; [|discriminate].
  simpl. intros H. injection H as <-. simpl.
  apply find_some in Hc. destruct Hc as [Hin Hname]. apply String.eqb_eq in Hname.
  repeat split; trivial.
  - apply limit_offset_incl in H. unfold books_in in H. now apply filter_In in H.
  - apply limit_offset_incl in H. unfold books_in in H. apply filter_In in H. lia.
Qed.

Lemma category_page_sound_witness :
  exists p, category library "Fiction" [("per_page", "1")] = Ok p
    /\ Category.name (page_category p) = "Fiction"
    /\ page_books p = [hobbit]
    /\ page_total_books p = 2.
Proof.
  eexists. split; [reflexivity|].
  pose proof (category_page_sound library "Fiction" [("per_page", "1")] _ eq_refl)
    as (Hn & _ & _ & Ht & Hb).
  split; [exact Hn|]. split; [exact Hb | exact Ht].
Defined.

(** * The handlers within the bounds of the interpreter and of SQLite *)

(** ** Listings *)

Lemma bounded_paginate_eq (rows : list Book.t) (page per_page : Z) :
  Bounded.paginate rows page per_page
  = if Bounded.int64 (if per_page <? 1 then 20 else per_page)
       && Bounded.int64 (((if page <? 1 then 1 else page) - 1)
                         * (if per_page <? 1 then 20 else per_page))
    then Ok (paginate rows page per_page)
    else Raise OverflowError.
Proof.
  unfold Bounded.paginate, Bounded.bind_param, paginate.
  destruct (Bounded.int64 (if per_page <? 1 then 20 else per_page)); [|reflexivity].
  cbv beta iota delta [bind].
  destruct (Bounded.int64 _); reflexivity.
Qed.

Lemma bounded_category_eq (s : Store) (category_name : string) (c : Category.t)
  (args : Args) :
  category_by_name s category_name = Some c ->
  Bounded.category s category_name args
  = if Bounded.listing_fits args
    then Ok (mkCategoryPage c
               (Pagination.items
                  (paginate (books_in s (Category.id c))
                     (Bounded.args_get_int "page" 1 args)
                     (Bounded.args_get_int "per_page" 10 args)))
               (paginate (books_in s (Category.id c))
                  (Bounded.args_get_int "page" 1 args)
                  (Bounded.args_get_int "per_page" 10 args))
               (Z.of_nat (List.length (books_in s (Category.id c)))))
    else Raise OverflowError.
Proof.
  intros Hc. unfold Bounded.category. rewrite Hc. unfold first_or_404.
  cbv beta iota delta [bind]. rewrite bounded_paginate_eq.
  unfold Bounded.listing_fits.
  destruct (Bounded.int64 _ && Bounded.int64 _); reflexivity.
Qed.

Lemma bounded_api_eq (s : Store) (category_name : string) (c : Category.t)
  (args : Args) :
  category_by_name s category_name = Some c ->
  exists c',
    find (fun x => Category.id x =? Category.id c) (category_table s) = Some c'
    /\ In c' (category_table s)
    /\ Category.id c' = Category.id c
    /\ Bounded.api_category_books s category_name args
       = if Bounded.listing_fits args
         then Ok (api_response
                    (map (fun b => book_dict b c')
                       (Pagination.items
                          (paginate
                             (sorted_query (args_get_str "sort_by" "relevance" args)
                                (books_in s (Category.id c)))
                             (Bounded.args_get_int "page" 1 args)
                             (Bounded.args_get_int "per_page" 10 args))))
                    (Z.of_nat (List.length (books_in s (Category.id c))))
                    (Pagination.pages
                       (paginate
                          (sorted_query (args_get_str "sort_by" "relevance" args)
                             (books_in s (Category.id c)))
                          (Bounded.args_get_int "page" 1 args)
                          (Bounded.args_get_int "per_page" 10 args)))
                    (Bounded.args_get_int "page" 1 args))
         else Raise OverflowError.
Proof.
  intros Hc.
  destruct (category_of_resolves s category_name c Hc) as (c' & Hid & Hres).
  exists c'.
  assert (F : find (fun x => Category.id x =? Category.id c) (category_table s) = Some c')
    by exact (Hres (sample_book 0 "" "" None true (Category.id c)) eq_refl).
  split; [exact F|].
  split; [apply find_some in F; tauto|].
  split; [exact Hid|].
  unfold Bounded.api_category_books. rewrite Hc. unfold first_or_404.
  cbv beta iota delta [bind]. rewrite bounded_paginate_eq.
  unfold Bounded.listing_fits.
  destruct (Bounded.int64 _ && Bounded.int64 _); [|reflexivity].
  rewrite (mapM_to_dict s c').
  - rewrite sorted_query_length. reflexivity.
  - intros b Hb. apply Hres. simpl in Hb. apply limit_offset_incl in Hb.
    apply (Permutation_in _ (sorted_query_perm _ _)) in Hb.
    unfold books_in in Hb. apply filter_In in Hb. lia.
Qed.

(** C2, as the code has it: for an existing category and a request whose
    page size and row offset fit a signed 64-bit integer, the API
    listing succeeds. Its books are the requested page of the
    category's rows, serialised in order, where the rows are taken: for
    [sort_by=title], in non-decreasing order of title; for
    [sort_by=date], in non-increasing order of published_date compared
    as text (rows without a date last); for every other value,
    [relevance] included, in table order. In each case the rows sorted
    are a rearrangement of the category's rows. *)
Theorem api_listing_order_in_range (s : Store) (category_name : string)
  (c : Category.t) (args : Args) :
  category_by_name s category_name = Some c ->
  Bounded.listing_fits args = true ->
  let page := Bounded.args_get_int "page" 1 args in
  let per_page := Bounded.args_get_int "per_page" 10 args in
  let sort_by := args_get_str "sort_by" "relevance" args in
  let rows := books_in s (Category.id c) in
  exists (c' : Category.t) (query items : list Book.t),
    Category.id c' = Category.id c
    /\ Permutation query rows
    /\ items = Pagination.items (paginate query page per_page)
    /\ Bounded.api_category_books s category_name args
       = Ok (api_response (map (fun b => book_dict b c') items)
               (Z.of_nat (List.length rows))
               (Pagination.pages (paginate query page per_page)) page)
    /\ (sort_by = "title" ->
        StronglySorted
          (fun a b => String.leb (Book.title a) (Book.title b) = true) query
        /\ StronglySorted
          (fun a b => String.leb (Book.title a) (Book.title b) = true) items)
    /\ (sort_by = "date" ->
        StronglySorted
          (fun a b => null_leb (Book.published_date b) (Book.published_date a) = true)
          query
        /\ StronglySorted
          (fun a b => null_leb (Book.published_date b) (Book.published_date a) = true)
          items)
    /\ (sort_by <> "title" -> sort_by <> "date" -> query = rows).
Proof.
  intros Hc Hfits page per_page sort_by rows.
  destruct (bounded_api_eq s category_name c args Hc) as (c' & _ & _ & Hid & H).
  rewrite Hfits in H.
  exists c', (sorted_query sort_by rows),
    (Pagination.items (paginate (sorted_query sort_by rows) page per_page)).
  assert (Ht : StronglySorted (fun a b => title_asc a b = true) (order_by title_asc rows)).
  { apply order_by_sorted; unfold title_asc; intros.
    - apply String.leb_total.
    - eapply string_leb_trans; eassumption. }
  assert (Hd : StronglySorted (fun a b => date_desc a b = true) (order_by date_desc rows)).
  { apply order_by_sorted; unfold date_desc; intros.
    - apply null_leb_total.
    - eapply null_leb_trans; eassumption. }
  split; [exact Hid|].
  split; [apply sorted_query_perm|].
  split; [reflexivity|].
  split; [exact H|].
  split.
  { intros E. unfold sorted_query. rewrite E. simpl.
    split; [exact Ht | apply sorted_limit_offset, Ht]. }
  split.
  { intros E. unfold sorted_query. rewrite E. simpl.
    split; [exact Hd | apply sorted_limit_offset, Hd]. }
  intros N1 N2. unfold sorted_query.
  destruct (String.eqb_spec sort_by "title"); [contradiction|].
  destruct (String.eqb_spec sort_by "date"); [contradiction|]. reflexivity.
Qed.

Lemma api_listing_order_in_range_witness :
  exists (c' : Category.t) (query items : list Book.t),
    Permutation query [hobbit; carrie]
    /\ Bounded.api_category_books library "Fiction" [("sort_by", "title")]
      = Ok (api_response (map (fun b => book_dict b c') items) 2
              (Pagination.pages (paginate query 1 10)) 1)
    /\ StronglySorted
         (fun a b => String.leb (Book.title a) (Book.title b) = true) items.
Proof.
  destruct (api_listing_order_in_range library "Fiction"
              (Category.mk 3 "Fiction" None None)
              [("sort_by", "title")] eq_refl eq_refl)
    as (c' & query & items & _ & P & _ & W & T & _).
  exists c', query, items.
  split; [exact P|]. split; [exact W | apply T; reflexivity].
Defined.

(** C2, as stated, fails on a page request whose row offset does not fit
    a signed 64-bit integer: for the existing category Fiction and page
    9223372036854775807 (ten rows a page) the driver raises
    OverflowError when it binds the OFFSET, under every sort order. *)
Lemma api_listing_overflow :
  category_by_name library "Fiction" = Some (Category.mk 3 "Fiction" None None)
  /\ Bounded.api_category_books library "Fiction"
       [("sort_by", "title"); ("page", max_int64)] = Raise OverflowError
  /\ Bounded.api_category_books library "Fiction"
       [("sort_by", "date"); ("page", max_int64)] = Raise OverflowError
  /\ Bounded.api_category_books library "Fiction" [("page", max_int64)]
     = Raise OverflowError.
Proof. repeat split; vm_compute; reflexivity. Qed.

(** C3, as the code has it: for an existing category, a request for a
    page past the last one whose page size and row offset fit a signed
    64-bit integer is answered with an empty slice by the category page
    and by the API listing, neither fails, and the pagination data are
    right: the requested page, the page size asked for (20 when that is
    below one), the number of books of the category as total, and its
    ceiling quotient as page count. With 25 books and 10 per page, page
    1 holds 10 books of 3 pages and page 4 holds none. *)
Theorem page_beyond_last_in_range :
  (forall (s : Store) (category_name : string) (c : Category.t) (args : Args),
      category_by_name s category_name = Some c ->
      Bounded.listing_fits args = true ->
      let page := Bounded.args_get_int "page" 1 args in
      let rows := books_in s (Category.id c) in
      let pg := paginate rows page (Bounded.args_get_int "per_page" 10 args) in
      Pagination.pages pg < page ->
      Bounded.category s category_name args
        = Ok (mkCategoryPage c [] pg (Z.of_nat (List.length rows)))
      /\ Bounded.api_category_books s category_name args
        = Ok (api_response [] (Z.of_nat (List.length rows)) (Pagination.pages pg) page)
      /\ Pagination.items pg = []
      /\ Pagination.page pg = page
      /\ 1 <= Pagination.per_page pg
      /\ Pagination.per_page pg
         = (if Bounded.args_get_int "per_page" 10 args <? 1 then 20
            else Bounded.args_get_int "per_page" 10 args)
      /\ Pagination.total pg = Z.of_nat (List.length rows)
      /\ (Pagination.pages pg - 1) * Pagination.per_page pg < Pagination.total pg
      /\ Pagination.total pg <= Pagination.pages pg * Pagination.per_page pg)
  /\ (exists p,
        Bounded.category big_library "Fiction" [("page", "1"); ("per_page", "10")] = Ok p
        /\ List.length (page_books p) = 10%nat
        /\ Pagination.pages (page_pagination p) = 3
        /\ Pagination.page (page_pagination p) = 1
        /\ page_total_books p = 25)
  /\ (exists books,
        Bounded.api_category_books big_library "Fiction"
          [("page", "1"); ("per_page", "10")]
          = Ok (api_response books 25 3 1)
        /\ List.length books = 10%nat)
  /\ (exists p,
        Bounded.category big_library "Fiction" [("page", "4"); ("per_page", "10")] = Ok p
        /\ page_books p = []
        /\ Pagination.pages (page_pagination p) = 3
        /\ Pagination.page (page_pagination p) = 4)
  /\ Bounded.api_category_books big_library "Fiction" [("page", "4"); ("per_page", "10")]
       = Ok (api_response [] 25 3 4).
Proof.
  split.
  { intros s category_name c args Hc Hfits page rows pg Hlast.
    destruct (pages_ceiling rows page (Bounded.args_get_int "per_page" 10 args))
      as (_ & Hpp & Ht & Hlo & Hhi).
    destruct (paginate_beyond rows page (Bounded.args_get_int "per_page" 10 args) Hlast)
      as (Hitems & Hpage).
    fold pg in Hpp, Ht, Hlo, Hhi, Hitems, Hpage.
    repeat split; trivial.
    - rewrite (bounded_category_eq s category_name c args Hc), Hfits.
      fold page. fold rows. fold pg. rewrite Hitems. reflexivity.
    - destruct (bounded_api_eq s category_name c args Hc) as (c' & _ & _ & _ & H).
      rewrite H, Hfits. fold page. fold rows.
      set (q := sorted_query _ rows).
      assert (Hlen : List.length q = List.length rows) by apply sorted_query_length.
      assert (Hpages : Pagination.pages
                         (paginate q page (Bounded.args_get_int "per_page" 10 args))
                       = Pagination.pages pg).
      { unfold pg, paginate, Pagination.pages. simpl. now rewrite Hlen. }
      destruct (paginate_beyond q page (Bounded.args_get_int "per_page" 10 args))
        as (Hq & _).
      { rewrite Hpages. exact Hlast. }
      rewrite Hq, Hpages. reflexivity. }
  split; [eexists; split; [vm_compute; reflexivity | repeat split; reflexivity]|].
  split.
  { exists (map (fun b => book_dict b (Category.mk 3 "Fiction" None None))
              (firstn 10 (fiction_shelf 25))).
    split; vm_compute; reflexivity. }
  split; [eexists; split; [vm_compute; reflexivity | repeat split; reflexivity]|].
  vm_compute. reflexivity.
Qed.

Lemma page_beyond_last_in_range_witness :
  Bounded.category big_library "Fiction" [("page", "4"); ("per_page", "10")]
    = Ok (mkCategoryPage (Category.mk 3 "Fiction" None None) []
            (paginate (books_in big_library 3) 4 10) 25)
  /\ Bounded.api_category_books big_library "Fiction" [("page", "4"); ("per_page", "10")]
    = Ok (api_response [] 25 3 4).
Proof.
  pose proof (proj1 page_beyond_last_in_range big_library "Fiction"
                (Category.mk 3 "Fiction" None None)
                [("page", "4"); ("per_page", "10")] eq_refl eq_refl) as W.
  simpl in W. specialize (W ltac:(vm_compute; reflexivity)).
  split; [exact (proj1 W) | exact (proj1 (proj2 W))].
Defined.

(** C3, as stated, fails on a page past the last one whose row offset
    does not fit a signed 64-bit integer: with 25 books, ten a page, the
    last page is 3, and the request for page 9223372036854775807 makes
    the driver raise OverflowError in the category page and in the API
    listing, where the claim promises an empty slice. *)
Lemma page_beyond_last_overflow :
  category_by_name big_library "Fiction" = Some (Category.mk 3 "Fiction" None None)
  /\ Pagination.pages (paginate (books_in big_library 3) 9223372036854775807 10) = 3
  /\ Bounded.args_get_int "page" 1 [("page", max_int64)] = 9223372036854775807
  /\ Bounded.category big_library "Fiction" [("page", max_int64)] = Raise OverflowError
  /\ Bounded.api_category_books big_library "Fiction" [("page", max_int64)]
     = Raise OverflowError.
Proof. repeat split; vm_compute; reflexivity. Qed.

(** X2: after [db_init], on whatever store, each seeded name is the name
    of a stored category, and the category page and the API listing of
    that name never end in 404: they succeed for every request whose
    page size and row offset fit a signed 64-bit integer and raise
    OverflowError for every other request. *)
Theorem seeded_category_pages_exist (s : Store) (n : string) (args : Args) :
  In n categories ->
  exists s' c,
    db_init s = Ok s'
    /\ category_by_name s' n = Some c
    /\ Category.name c = n
    /\ Bounded.category s' n args <> NotFound
    /\ Bounded.api_category_books s' n args <> NotFound
    /\ (Bounded.listing_fits args = true ->
        (exists p, Bounded.category s' n args = Ok p /\ page_category p = c)
        /\ (exists j, Bounded.api_category_books s' n args = Ok j))
    /\ (Bounded.listing_fits args = false ->
        Bounded.category s' n args = Raise OverflowError
        /\ Bounded.api_category_books s' n args = Raise OverflowError).
Proof.
  intros Hn. unfold db_init.
  destruct (seed_counts categories s) as (s' & Hs & _).
  destruct (seed_resolves categories s s' n Hs Hn) as (c & Hc & Hname).
  exists s', c.
  pose proof (bounded_category_eq s' n c args Hc) as HC.
  destruct (bounded_api_eq s' n c args Hc) as (c' & _ & _ & _ & HA).
  rewrite HC, HA.
  split; [exact Hs|]. split; [exact Hc|]. split; [exact Hname|].
  destruct (Bounded.listing_fits args).
  - split; [discriminate|]. split; [discriminate|].
    split; [|discriminate]. intros _. split.
    + eexists. split; reflexivity.
    + eexists. reflexivity.
  - split; [discriminate|]. split; [discriminate|].
    split; [discriminate|]. intros _. split; reflexivity.
Qed.

Lemma seeded_category_pages_exist_witness :
  exists s' c,
    db_init fiction_only = Ok s'
    /\ category_by_name s' "Thesis" = Some c
    /\ Category.name c = "Thesis"
    /\ (exists p, Bounded.category s' "Thesis" [("page", "7")] = Ok p
                  /\ page_category p = c)
    /\ (exists j, Bounded.api_category_books s' "Thesis" [("page", "7")] = Ok j).
Proof.
  destruct (seeded_category_pages_exist fiction_only "Thesis" [("page", "7")]
              ltac:(simpl; tauto))
    as (s' & c & H1 & H2 & H3 & _ & _ & Hfit & _).
  exists s', c. repeat split; trivial; apply Hfit; reflexivity.
Defined.

(** ** Book pages *)

(** X19: [book_detail] binds the id as a query parameter: for an id that
    fits a signed 64-bit integer it ends in 404 exactly when no stored
    book has the id, otherwise returns a stored book of that id, and
    does not raise; for any other id it raises OverflowError. *)
Theorem book_detail_outcomes (s : Store) (book_id : Z) :
  (Bounded.int64 book_id = true ->
   (Bounded.book_detail s book_id = NotFound <->
    forall b, In b (book_table s) -> Book.id b <> book_id)
   /\ (forall b, Bounded.book_detail s book_id = Ok b ->
                 In b (book_table s) /\ Book.id b = book_id)
   /\ (forall e, Bounded.book_detail s book_id <> Raise e))
  /\ (Bounded.int64 book_id = false ->
      Bounded.book_detail s book_id = Raise OverflowError).
Proof.
  unfold Bounded.book_detail, Bounded.get_or_404, Bounded.bind_param.
  split; intros H; rewrite H; [|reflexivity].
  cbv beta iota delta [bind]. unfold get_or_404.
  destruct (find (fun b => Book.id b =? book_id) (book_table s)) as [b|] eqn:F.
  - apply find_some in F. destruct F as [Hin Hid]. apply Z.eqb_eq in Hid.
    split; [split; [discriminate | intros N; exfalso; exact (N b Hin Hid)]|].
    split; [|discriminate]. intros b' E. injection E as <-. tauto.
  - split; [split; [|reflexivity]|split; discriminate].
    intros _ b Hb E. apply (find_none _ _ F) in Hb. lia.
Qed.

Lemma book_detail_outcomes_witness :
  (Bounded.book_detail library 7 = NotFound <->
   forall b, In b (book_table library) -> Book.id b <> 7)
  /\ Bounded.book_detail library 9223372036854775808 = Raise OverflowError.
Proof.
  split.
  - exact (proj1 (proj1 (book_detail_outcomes library 7) eq_refl)).
  - exact (proj2 (book_detail_outcomes library 9223372036854775808) eq_refl).
Defined.

(** ** Search *)

Lemma bounded_search_rows_incl (s : Store) (q : string) (cid : option string)
  (rows : list Book.t) :
  Bounded.search_rows s q cid = Ok rows ->
  forall b, In b rows -> In b (book_table s).
Proof.
  unfold Bounded.search_rows. intros H b Hb.
  destruct (Bounded.category_filter cid) as [[n|]| |e]; simpl in H; try discriminate.
  - destruct (Bounded.bind_param n) as [id| |e]; simpl in H; try discriminate.
    destruct (_ && _); [discriminate|]. injection H as <-.
    apply filter_In in Hb. destruct Hb as [Hb _]. now apply filter_In in Hb.
  - destruct (_ && _); [discriminate|]. injection H as <-.
    now apply filter_In in Hb.
Qed.

(** Case analysis on the test of a conditional in a hypothesis. *)
Ltac case_if H :=
  match type of H with
  | (if ?c then _ else _) = _ => destruct c
  end.

(** X13: on a store in which every book references a stored category,
    [search] never ends in 404 and fails in three ways only: with
    ValueError, for a non-empty query whose category parameter passes
    [isdigit] and is rejected by [int]; with OverflowError, when that
    parameter is an integer outside 64 bits; with OperationalError, when
    the LIKE pattern is longer than 50000 bytes and the book table has a
    row. Every other request succeeds. *)
Theorem search_failures (s : Store) (args : Args) :
  references_resolve s ->
  (exists j, Bounded.search s args = Ok j)
  \/ (Bounded.search s args = Raise ValueError
      /\ truthy (args_get_str "q" "" args) = true
      /\ exists cid, args_get "category" args = Some cid
           /\ isdigit cid = true /\ Bounded.int cid = None)
  \/ (Bounded.search s args = Raise OverflowError
      /\ truthy (args_get_str "q" "" args) = true
      /\ exists cid n, args_get "category" args = Some cid
           /\ isdigit cid = true /\ Bounded.int cid = Some n
           /\ Bounded.int64 n = false)
  \/ (Bounded.search s args = Raise OperationalError
      /\ truthy (args_get_str "q" "" args) = true
      /\ Bounded.like_pattern_limit
         < Bounded.utf8_length ("%" ++ args_get_str "q" "" args ++ "%")
      /\ book_table s <> []).
Proof.
  intros Hr. unfold Bounded.search.
  destruct (truthy (args_get_str "q" "" args)) eqn:Hq; [|left; eexists; reflexivity].
  set (q := args_get_str "q" "" args) in *.
  assert (Hok : forall rows, Bounded.search_rows s q (args_get "category" args) = Ok rows ->
                exists j, (books <- Bounded.search_rows s q (args_get "category" args) ;;
                           results <- mapM (to_dict s) books ;;
                           Ok (search_response results (Z.of_nat (List.length books))))
                          = Ok j).
  { intros rows R. rewrite R. cbv beta iota delta [bind].
    destruct (mapM_to_dict_ok s rows) as (ds & Hds).
    - intros b Hb. apply Hr. exact (bounded_search_rows_incl _ _ _ _ R b Hb).
    - rewrite Hds. eexists. reflexivity. }
  assert (Hlim : forall rows : list Book.t,
            (if (Bounded.like_pattern_limit <? Bounded.utf8_length ("%" ++ q ++ "%"))
                && negb (Nat.eqb (List.length (book_table s)) 0)
             then Raise OperationalError else Ok rows) = Raise OperationalError ->
            Bounded.like_pattern_limit < Bounded.utf8_length ("%" ++ q ++ "%")
            /\ book_table s <> []).
  { intros rows H.
    destruct (Z.ltb_spec Bounded.like_pattern_limit (Bounded.utf8_length ("%" ++ q ++ "%")));
      [|discriminate].
    split; [assumption|]. intros E. rewrite E in H. discriminate. }
  destruct (Bounded.search_rows s q (args_get "category" args)) as [rows| |e] eqn:R.
  - left. destruct (Hok rows eq_refl) as (j & Hj). exists j. exact Hj.
  - exfalso. unfold Bounded.search_rows, Bounded.category_filter, Bounded.bind_param in R.
    destruct (args_get "category" args) as [cid|]; simpl in R.
    + destruct (truthy cid && isdigit cid); simpl in R.
      * destruct (Bounded.int cid); simpl in R; [|discriminate].
        destruct (Bounded.int64 z); simpl in R; [|discriminate].
        case_if R; discriminate.
      * case_if R; discriminate.
    + case_if R; discriminate.
  - right. unfold Bounded.search_rows, Bounded.category_filter, Bounded.bind_param in R.
    destruct (args_get "category" args) as [cid|]; simpl in R.
    + destruct (truthy cid && isdigit cid) eqn:D; simpl in R.
      * apply andb_prop in D. destruct D as [_ D].
        destruct (Bounded.int cid) as [n|] eqn:I; simpl in R.
        -- destruct (Bounded.int64 n) eqn:F; simpl in R.
           ++ right. right.
              assert (e = OperationalError)
                by (case_if R; [injection R as <-; reflexivity | discriminate]).
              subst e. split; [reflexivity|]. split; [reflexivity|].
              exact (Hlim _ R).
           ++ right. left. injection R as <-.
              split; [reflexivity|]. split; [reflexivity|].
              exists cid, n. auto.
        -- left. injection R as <-. split; [reflexivity|]. split; [reflexivity|].
           exists cid. auto.
      * right. right.
        assert (e = OperationalError)
          by (case_if R; [injection R as <-; reflexivity | discriminate]).
        subst e. split; [reflexivity|]. split; [reflexivity|]. exact (Hlim _ R).
    + right. right.
      assert (e = OperationalError)
        by (case_if R; [injection R as <-; reflexivity | discriminate]).
      subst e. split; [reflexivity|]. split; [reflexivity|]. exact (Hlim _ R).
Qed.

Lemma library_references_resolve : references_resolve library.
Proof.
  intros b Hb. simpl in Hb.
  repeat (destruct Hb as [<-|Hb]; [discriminate|]). destruct Hb.
Qed.

Lemma search_failures_witness :
  Bounded.search library [("q", "a"); ("category", "9223372036854775808")]
  = Raise OverflowError.
Proof.
  destruct (search_failures library [("q", "a"); ("category", "9223372036854775808")]
              library_references_resolve)
    as [(j & H)|[(H & _)|[(H & _)|(H & _)]]];
    first [exact H | vm_compute in H; discriminate].
Defined.

Lemma digit_count_nonneg (s : string) : 0 <= Bounded.digit_count s.
Proof.
  induction s as [|c s IH]; simpl; [lia|]. destruct (is_decimal c); lia.
Qed.

(** X15: the category parameter of [search]. A value [isdigit] rejects
    (letters, a sign, the empty string) leaves the outcome as without
    the parameter. A non-empty string of decimal digits is read as a
    natural number [n] when it has at most 4300 digits: below 2^63 the
    search keeps, of the rows it selects without the parameter, those of
    category [n], in table order; from 2^63 on it raises OverflowError.
    With more than 4300 digits it raises ValueError. *)
Theorem search_category_parameter (s : Store) (q cid : string) :
  (isdigit cid = false ->
   Bounded.search_rows s q (Some cid) = Bounded.search_rows s q None
   /\ Bounded.search s [("q", q); ("category", cid)] = Bounded.search s [("q", q)])
  /\ (truthy cid = true -> all_chars is_decimal cid = true ->
      (Bounded.max_str_digits < Bounded.digit_count cid ->
       Bounded.search_rows s q (Some cid) = Raise ValueError)
      /\ (Bounded.digit_count cid <= Bounded.max_str_digits ->
          exists n, py_int cid = Some n /\ 0 <= n
            /\ (n < 9223372036854775808 ->
                Bounded.search_rows s q (Some cid)
                = (rows <- Bounded.search_rows s q None ;;
                   Ok (filter (fun b => Book.category_id b =? n) rows)))
            /\ (9223372036854775808 <= n ->
                Bounded.search_rows s q (Some cid) = Raise OverflowError))).
Proof.
  split.
  - intros H.
    assert (E : Bounded.search_rows s q (Some cid) = Bounded.search_rows s q None).
    { unfold Bounded.search_rows, Bounded.category_filter.
      rewrite H, andb_false_r. reflexivity. }
    split; [exact E|].
    unfold Bounded.search.
    change (args_get_str "q" "" [("q", q); ("category", cid)]) with q.
    change (args_get_str "q" "" [("q", q)]) with q.
    change (args_get "category" [("q", q); ("category", cid)]) with (Some cid).
    change (args_get "category" [("q", q)]) with (@None string).
    now rewrite E.
  - intros Ht Hd.
    pose proof (decimal_isdigit cid Ht Hd) as Hdig.
    unfold Bounded.search_rows, Bounded.category_filter, Bounded.int.
    rewrite Ht, Hdig. cbn [andb].
    split.
    + intros Hlong. apply Z.ltb_lt in Hlong. rewrite Hlong. reflexivity.
    + intros Hshort.
      destruct (Z.ltb_spec Bounded.max_str_digits (Bounded.digit_count cid)); [lia|].
      destruct (py_int_decimal cid Ht Hd) as (n & Hn & Hpos).
      exists n. split; [exact Hn|]. split; [exact Hpos|].
      rewrite Hn. cbv beta iota delta [bind]. unfold Bounded.bind_param, Bounded.int64.
      split; intros Hb.
      * destruct (Z.leb_spec (-9223372036854775808) n); [|lia].
        destruct (Z.ltb_spec n 9223372036854775808); [|lia].
        cbn [andb]. destruct (_ && _); reflexivity.
      * destruct (Z.ltb_spec n 9223372036854775808); [lia|].
        rewrite andb_false_r. reflexivity.
Qed.

Lemma search_category_parameter_witness :
  (Bounded.search_rows library "a" (Some "-3") = Bounded.search_rows library "a" None
   /\ Bounded.search library [("q", "a"); ("category", "-3")]
      = Bounded.search library [("q", "a")])
  /\ exists n, py_int "08" = Some n /\ 0 <= n
       /\ (n < 9223372036854775808 ->
           Bounded.search_rows library "a" (Some "08")
           = (rows <- Bounded.search_rows library "a" None ;;
              Ok (filter (fun b => Book.category_id b =? n) rows)))
       /\ (9223372036854775808 <= n ->
           Bounded.search_rows library "a" (Some "08") = Raise OverflowError).
Proof.
  split.
  - exact (proj1 (search_category_parameter library "a" "-3") eq_refl).
  - apply (proj2 (proj2 (search_category_parameter library "a" "08") eq_refl eq_refl)).
    vm_compute. discriminate.
Defined.

Lemma lower_char_nul (c : ascii) : (code (lower_char c) =? 0) = (code c =? 0).
Proof. destruct c as [[] [] [] [] [] [] [] []]; reflexivity. Qed.

Lemma c_str_lower (t : string) : Bounded.c_str (lower t) = lower (Bounded.c_str t).
Proof.
  induction t as [|c t IH]; simpl; [reflexivity|].
  rewrite lower_char_nul. destruct (code c =? 0); simpl; [reflexivity | now rewrite IH].
Qed.

Lemma c_str_app (a b : string) :
  Bounded.c_str a = a -> Bounded.c_str (a ++ b) = a ++ Bounded.c_str b.
Proof.
  induction a as [|c a IH]; simpl; [reflexivity|].
  destruct (code c =? 0); [discriminate|].
  intros H. injection H as H. now rewrite IH.
Qed.

Lemma utf8_length_app (a b : string) :
  Bounded.utf8_length (a ++ b) = Bounded.utf8_length a + Bounded.utf8_length b.
Proof. induction a as [|c a IH]; simpl; [reflexivity | rewrite IH; lia]. Qed.

(** For a query without wildcards and without NUL the WHERE clause of
    [search] is the three-way substring test on the fields read up to
    their first NUL. *)
Lemma bounded_text_match_substring (q : string) (b : Book.t) :
  wildcard_free q = true -> Bounded.c_str q = q ->
  Bounded.text_match q b = Bounded.spec_match q b.
Proof.
  intros Hw Hn. rewrite <- lower_wildcard_free in Hw.
  assert (Hp : Bounded.c_str (lower ("%" ++ q ++ "%")) = "%" ++ lower q ++ "%").
  { rewrite !lower_app. change (lower "%") with "%".
    change ("%" ++ lower q ++ "%") with (String "%" (lower q ++ "%")).
    cbn [Bounded.c_str]. change (code "%" =? 0) with false. cbv iota.
    rewrite c_str_app; [reflexivity|]. now rewrite c_str_lower, Hn. }
  unfold Bounded.text_match, Bounded.spec_match, Bounded.contains_ci, Bounded.ilike.
  rewrite Hp.
  destruct (Book.description b) as [d|];
    rewrite !(like_substring _ _ Hw);
    destruct (substring_of (lower q) (Bounded.c_str (lower (Book.title b))));
    destruct (substring_of (lower q) (Bounded.c_str (lower (Book.author b))));
    try reflexivity;
    destruct (substring_of (lower q) (Bounded.c_str (lower d))); reflexivity.
Qed.

(** X16: for a non-empty query of at most 49998 bytes that holds none of
    the characters [%], [_] and NUL, the rows [search] selects are
    exactly the books whose title, author or description, each read up
    to its first NUL, contains the query, letters A to Z compared
    without case, in table order; a book without description is judged
    on title and author. *)
Theorem search_selects_substring_matches (s : Store) (q : string) :
  truthy q = true -> wildcard_free q = true -> Bounded.c_str q = q ->
  Bounded.utf8_length q <= 49998 ->
  Bounded.search_rows s q None = Ok (filter (Bounded.spec_match q) (book_table s))
  /\ (forall b, In b (filter (Bounded.spec_match q) (book_table s)) <->
                In b (book_table s)
                /\ (substring_of (lower q) (Bounded.c_str (lower (Book.title b))) = true
                    \/ substring_of (lower q) (Bounded.c_str (lower (Book.author b))) = true
                    \/ exists d, Book.description b = Some d
                         /\ substring_of (lower q) (Bounded.c_str (lower d)) = true)).
Proof.
  intros Hq Hw Hn Hlen. split.
  - unfold Bounded.search_rows, Bounded.category_filter. cbv beta iota delta [bind].
    assert (L : (Bounded.like_pattern_limit <? Bounded.utf8_length ("%" ++ q ++ "%")) = false).
    { apply Z.ltb_ge. rewrite !utf8_length_app. unfold Bounded.like_pattern_limit.
      change (Bounded.utf8_length "%") with 1. lia. }
    rewrite L. cbn [andb]. f_equal. apply filter_ext.
    intros b. now apply bounded_text_match_substring.
  - intros b. rewrite filter_In. unfold Bounded.spec_match, Bounded.contains_ci.
    rewrite !orb_true_iff.
    destruct (Book.description b) as [d|].
    + split; intros [Hb H]; (split; [exact Hb|]).
      * destruct H as [[H|H]|H]; auto. right. right. exists d. auto.
      * destruct H as [H|[H|(d' & E & H)]]; auto. injection E as <-. auto.
    + split; intros [Hb H]; (split; [exact Hb|]).
      * destruct H as [[H|H]|H]; auto. discriminate.
      * destruct H as [H|[H|(d' & E & H)]]; auto. discriminate.
Qed.

Lemma search_selects_substring_matches_witness :
  Bounded.search_rows nul_library "B" None
    = Ok (filter (Bounded.spec_match "B") (book_table nul_library))
  /\ map Book.id (filter (Bounded.spec_match "B") (book_table nul_library)) = [1; 3; 4]
  /\ map Book.id (filter (Bounded.spec_match "cd") (book_table nul_library)) = [].
Proof.
  split; [|split; reflexivity].
  apply (search_selects_substring_matches nul_library "B");
    [reflexivity | reflexivity | reflexivity | vm_compute; discriminate].
Defined.

(** ** The two embeddings *)

(** Within the bounds the handlers of [Bounded] are the handlers over
    unbounded integers: on a listing request whose page and page size are
    read alike and whose page size and row offset fit 64 bits, both give
    the same outcome. *)
Lemma bounded_listings_agree (s : Store) (category_name : string) (args : Args) :
  Bounded.args_get_int "page" 1 args = args_get_int "page" 1 args ->
  Bounded.args_get_int "per_page" 10 args = args_get_int "per_page" 10 args ->
  Bounded.listing_fits args = true ->
  Bounded.category s category_name args = category s category_name args
  /\ Bounded.api_category_books s category_name args
     = api_category_books s category_name args.
Proof.
  intros Hp Hpp Hfits.
  unfold Bounded.category, Bounded.api_category_books, category, api_category_books.
  destruct (first_or_404 (category_by_name s category_name)) as [c| |e];
    [|split; reflexivity|split; reflexivity].
  cbv beta iota delta [bind]. rewrite !bounded_paginate_eq.
  unfold Bounded.listing_fits in Hfits. rewrite Hfits, Hp, Hpp.
  split; reflexivity.
Qed.
